(** * profiling.remote: the frame codec and the broadcast server

    A shallow embedding of [profiling/remote/__init__.py]: the
    length-prefixed frame codec ([pack_stats], [recv], [recv_stats]) and the
    [BaseProfilingServer] state machine ([connected], [disconnected] and the
    [profiling] generator), with the properties of the specification stated
    and proved against that embedding. *)

From Stdlib Require Import ZArith NArith Lia List.
From Stdlib.Strings Require Byte.
From stdpp Require Import base decidable option list gmap sets strings pretty.

Local Open Scope N_scope.

(** ** Python values and exceptions *)

Abbreviation byte := Byte.byte.
Abbreviation bytes := (list Byte.byte).

#[global] Instance byte_eq_decision : EqDecision byte := Byte.byte_eq_dec.

(** The exceptions the module raises or lets through.  [socket.error] carries
    its [errno] and message; the other two are the errors of the [struct] and
    [pickle] modules; [OtherError] stands for any exception that is not a
    [socket.error] (an adapter may raise whatever it likes). *)
Inductive exn : Type :=
| SocketError (errno : Z) (strerror : string)
| StructError
| PickleError
| OtherError (what : string).

Inductive result (A : Type) : Type :=
| Ok (a : A)
| Raise (e : exn).
Arguments Ok {A} a.
Arguments Raise {A} e.

Definition is_ok {A} (r : result A) : bool :=
  match r with Ok _ => true | Raise _ => false end.

(** ** [struct.pack] and [struct.unpack] with format ['!I'] *)

Module Struct.

(** [SIZE_STRUCT_FORMAT = '!I']: network byte order, unsigned 32 bits. *)
Definition calcsize : N := 4.

Definition uint32_max : N := 4294967295.

Definition byte_of_N (n : N) : byte :=
  match Byte.of_N (n mod 256) with
  | Some b => b
  | None => Byte.x00
  end.

(** [struct.pack('!I', n)]: the four bytes of [n], most significant first;
    [struct.error] when [n] does not fit. *)
Definition pack (n : N) : result bytes :=
  if n <=? uint32_max then
    Ok [ byte_of_N (N.shiftr n 24); byte_of_N (N.shiftr n 16);
         byte_of_N (N.shiftr n 8); byte_of_N n ]
  else Raise StructError.

(** [struct.unpack('!I', data)]: needs exactly four bytes. *)
Definition unpack (data : bytes) : result N :=
  match data with
  | [b3; b2; b1; b0] =>
      Ok (N.lor (N.shiftl (Byte.to_N b3) 24)
         (N.lor (N.shiftl (Byte.to_N b2) 16)
         (N.lor (N.shiftl (Byte.to_N b1) 8) (Byte.to_N b0))))
  | _ => Raise StructError
  end.

(** The value a four-byte big-endian header denotes, arithmetically. *)
Definition be_value (data : bytes) : N :=
  fold_left (fun acc b => acc * 256 + Byte.to_N b) data 0.

End Struct.

(** ** Sockets on the receiving side *)

Module Socket.

(** A connected stream socket seen from the reader: the bytes that the peer
    delivers before it closes the connection. *)
Record t : Type := mk { incoming : bytes }.

(** [sock.recv(size, socket.MSG_WAITALL)]: blocks until [size] bytes have
    arrived or the peer has closed; returns what arrived, at most [size]
    bytes, and consumes it. *)
Definition recv_waitall (sock : t) (size : N) : bytes * t :=
  (take (N.to_nat size) (incoming sock),
   mk (drop (N.to_nat size) (incoming sock))).

End Socket.

(** ** Collaborators outside the module *)

(** [profiling/remote/errnos.py]: the platform's error numbers. *)
Class Errnos : Type := {
  EBADF : Z;
  EPIPE : Z;
  ECONNRESET : Z
}.

(** The [pickle] module, over the type of the profiler's result objects. *)
Class Pickle (Stats : Type) : Type := {
  pickle_dumps : Stats -> Z -> result bytes;
  pickle_loads : bytes -> result Stats
}.

(** What the codec relies on from [pickle]: loading what was dumped gives
    the object back. *)
Definition pickle_round_trips {Stats} {pickle : Pickle Stats} : Prop :=
  forall stats protocol dump,
    pickle_dumps stats protocol = Ok dump -> pickle_loads dump = Ok stats.

(** The profiler collaborator: [start()], [stop()], [clear()], [result()]. *)
Class ProfilerOps (Profiler Stats : Type) : Type := {
  profiler_start : Profiler -> Profiler;
  profiler_stop : Profiler -> Profiler;
  profiler_clear : Profiler -> Profiler;
  profiler_result : Profiler -> Stats
}.

(** ** The frame codec *)

Section Codec.

Context {errnos : Errnos}.
Context {Stats : Type} {pickle : Pickle Stats}.
Context {Profiler : Type} {profiler_ops : ProfilerOps Profiler Stats}.

(** [pack_stats(profiler, pickle_protocol)].  [dump.tell()] after the dump
    is the number of bytes pickled and [dump.getvalue()] those bytes. *)
Definition pack_stats (profiler : Profiler) (pickle_protocol : Z)
  : result bytes :=
  let stats := profiler_result profiler in
  match pickle_dumps stats pickle_protocol with
  | Raise e => Raise e
  | Ok dump =>
      let size := N.of_nat (length dump) in
      match Struct.pack size with
      | Raise e => Raise e
      | Ok header => Ok (header ++ dump)
      end
  end.

(** [recv(sock, size)]. *)
Definition recv (sock : Socket.t) (size : N) : result bytes * Socket.t :=
  let '(data, sock') := Socket.recv_waitall sock size in
  if N.of_nat (length data) <? size then
    (Raise (SocketError ECONNRESET "Connection closed"), sock')
  else (Ok data, sock').

(** [recv_stats(sock)]. *)
Definition recv_stats (sock : Socket.t) : result Stats * Socket.t :=
  match recv sock Struct.calcsize with
  | (Raise e, sock1) => (Raise e, sock1)
  | (Ok data, sock1) =>
      match Struct.unpack data with
      | Raise e => (Raise e, sock1)
      | Ok size =>
          match recv sock1 size with
          | (Raise e, sock2) => (Raise e, sock2)
          | (Ok data, sock2) => (pickle_loads data, sock2)
          end
      end
  end.

End Codec.

(** ** The log messages *)

Definition address : Type := string * N.

Definition fmt_connected (addr : option address) (num_clients : nat) : string :=
  match addr with
  | Some (host, port) =>
      "Connected from " +:+ host +:+ ":" +:+ pretty port
        +:+ " (total: " +:+ pretty num_clients +:+ ")"
  | None => "A client connected (total: " +:+ pretty num_clients +:+ ")"
  end.

Definition fmt_disconnected (addr : option address) (num_clients : nat) : string :=
  match addr with
  | Some (host, port) =>
      "Disconnected from " +:+ host +:+ ":" +:+ pretty port
        +:+ " (total: " +:+ pretty num_clients +:+ ")"
  | None => "A client disconnected (total: " +:+ pretty num_clients +:+ ")"
  end.

Definition fmt_profiler_started (interval : N) : string :=
  "Profiling every " +:+ pretty interval +:+ " seconds...".

Definition fmt_profiler_stopped : string := "Profiler stopped".

(** ** The server *)

(** Client handles are opaque; only their identity matters. *)
Abbreviation Client := nat.

(** What the server does to the outside world, in the order it does it:
    calls of [self.log] and of the methods a backend implements.  A send is
    recorded with its outcome ([None]: delivered, [Some e]: raised [e]). *)
Inductive Event : Type :=
| EvLog (msg : string)
| EvSend (client : Client) (data : bytes) (outcome : option exn)
| EvClose (client : Client)
| EvStartWatching (client : Client)
| EvStartProfiling.

(** The backend behind the abstract methods.  Whether a [_send] succeeds is
    decided by the world, possibly from everything that happened so far;
    [_addr] gives the peer address when it is a (host, port) pair.  The
    other methods ([_close], [_start_watching], [_start_profiling]) are
    observed as events. *)
Class Adapter : Type := {
  _send_outcome : list Event -> Client -> bytes -> option exn;
  _addr : Client -> option address
}.

(** The order in which a [for] loop visits a Python set. *)
Class SetIteration : Type := {
  set_iter : gset Client -> list Client
}.

Module Server.

(** The attributes of a [BaseProfilingServer], and the events so far. *)
Record t (Profiler : Type) : Type := mk {
  profiler : Profiler;
  interval : N;
  pickle_protocol : Z;
  clients : gset Client;
  _latest_data : option bytes;
  trace : list Event
}.
Arguments mk {Profiler}.
Arguments profiler {Profiler}.
Arguments interval {Profiler}.
Arguments pickle_protocol {Profiler}.
Arguments clients {Profiler}.
Arguments _latest_data {Profiler}.
Arguments trace {Profiler}.

(** [INTERVAL] and a stand-in for [PICKLE_PROTOCOL]'s default. *)
Definition INTERVAL : N := 5.

(** [__init__]: no clients; [_latest_data] is the class attribute [None]. *)
Definition init {Profiler} (profiler : Profiler) (interval : N)
    (pickle_protocol : Z) : t Profiler :=
  mk profiler interval pickle_protocol ∅ None [].

Definition with_profiler {Profiler} (f : Profiler -> Profiler)
    (self : t Profiler) : t Profiler :=
  mk (f (profiler self)) (interval self) (pickle_protocol self)
     (clients self) (_latest_data self) (trace self).

Definition with_clients {Profiler} (f : gset Client -> gset Client)
    (self : t Profiler) : t Profiler :=
  mk (profiler self) (interval self) (pickle_protocol self)
     (f (clients self)) (_latest_data self) (trace self).

Definition with_latest_data {Profiler} (data : bytes)
    (self : t Profiler) : t Profiler :=
  mk (profiler self) (interval self) (pickle_protocol self)
     (clients self) (Some data) (trace self).

Definition emit {Profiler} (ev : Event) (self : t Profiler) : t Profiler :=
  mk (profiler self) (interval self) (pickle_protocol self)
     (clients self) (_latest_data self) (trace self ++ [ev]).

(** The events a run from [self] to [self'] added. *)
Definition emitted {Profiler} (self self' : t Profiler) : list Event :=
  drop (length (trace self)) (trace self').

End Server.

(** A method: it runs on the server object, may change it, and returns or
    raises.  What it changed before raising stays changed. *)
Definition M (S A : Type) : Type := S -> result A * S.

Definition ret {S A} (a : A) : M S A := fun s => (Ok a, s).

Definition raise {S A} (e : exn) : M S A := fun s => (Raise e, s).

Definition bind {S A B} (m : M S A) (k : A -> M S B) : M S B :=
  fun s =>
    match m s with
    | (Ok a, s') => k a s'
    | (Raise e, s') => (Raise e, s')
    end.

Definition modify {S} (f : S -> S) : M S unit := fun s => (Ok tt, f s).

Definition gets {S A} (f : S -> A) : M S A := fun s => (Ok (f s), s).

(** [try: m] with the exception, if any, handed to the [except] clauses. *)
Definition try_ {S A} (m : M S A) : M S (result A) :=
  fun s => let '(r, s') := m s in (Ok r, s').

Notation "x <- m ;; k" := (bind m (fun x => k))
  (at level 100, m at next level, right associativity).
Notation "m ;;; k" := (bind m (fun _ => k))
  (at level 100, right associativity).

(** The state of the generator object that [profiling()] returns: not yet
    started, suspended at its [yield], or finished. *)
Inductive Generator : Type :=
| GenCreated
| GenSuspended
| GenFinished.

(** ** Reading a trace *)

Definition is_start_profiling (ev : Event) : bool :=
  match ev with EvStartProfiling => true | _ => false end.

Definition is_log (ev : Event) : bool :=
  match ev with EvLog _ => true | _ => false end.

Definition is_close (ev : Event) : bool :=
  match ev with EvClose _ => true | _ => false end.

(** Number of [_start_profiling] calls among some events. *)
Definition scheduling_calls (evs : list Event) : nat :=
  length (List.filter is_start_profiling evs).

(** The [_send] calls among some events: whom, what, and the outcome. *)
Fixpoint sends (evs : list Event) : list (Client * bytes * option exn) :=
  match evs with
  | [] => []
  | EvSend client data outcome :: evs' => (client, data, outcome) :: sends evs'
  | _ :: evs' => sends evs'
  end.

(** The clients that were sent [data] successfully, once per delivery. *)
Fixpoint delivered (data : bytes) (evs : list Event) : list Client :=
  match evs with
  | [] => []
  | EvSend client data' None :: evs' =>
      if decide (data' = data) then client :: delivered data evs'
      else delivered data evs'
  | _ :: evs' => delivered data evs'
  end.

(** ** The methods of [BaseProfilingServer] *)

Section Methods.

Context {errnos : Errnos}.
Context {Stats : Type} {pickle : Pickle Stats}.
Context {Profiler : Type} {profiler_ops : ProfilerOps Profiler Stats}.
Context {adapter : Adapter} {set_iteration : SetIteration}.

Local Abbreviation Self := (Server.t Profiler).
Local Abbreviation Method := (M Self).

Definition log (msg : string) : Method unit :=
  modify (Server.emit (EvLog msg)).

(** [self._send(client, data)]: the backend's outcome, recorded. *)
Definition _send (client : Client) (data : bytes) : Method unit :=
  fun self =>
    let outcome := _send_outcome (Server.trace self) client data in
    let self' := Server.emit (EvSend client data outcome) self in
    match outcome with
    | None => (Ok tt, self')
    | Some e => (Raise e, self')
    end.

Definition _close (client : Client) : Method unit :=
  modify (Server.emit (EvClose client)).

Definition _start_watching (client : Client) : Method unit :=
  modify (Server.emit (EvStartWatching client)).

Definition _start_profiling : Method unit :=
  modify (Server.emit EvStartProfiling).

Definition _log_connected (client : Client) : Method unit :=
  let addr := _addr client in
  n <- gets (fun self => size (Server.clients self)) ;;
  log (fmt_connected addr n).

Definition _log_disconnected (client : Client) : Method unit :=
  let addr := _addr client in
  n <- gets (fun self => size (Server.clients self)) ;;
  log (fmt_disconnected addr n).

Definition _log_profiler_started : Method unit :=
  interval <- gets Server.interval ;;
  log (fmt_profiler_started interval).

Definition _log_profiler_stopped : Method unit :=
  log fmt_profiler_stopped.

(** [disconnected(self, client)]. *)
Definition disconnected (client : Client) : Method unit :=
  cs <- gets Server.clients ;;
  if decide (client ∈ cs) then
    modify (Server.with_clients (fun cs => cs ∖ {[client]})) ;;;
    _log_disconnected client ;;;
    _close client
  else
    (* already disconnected. *)
    ret tt.

(** [connected(self, client)]. *)
Definition connected (client : Client) : Method unit :=
  modify (Server.with_clients (fun cs => cs ∪ {[client]})) ;;;
  _log_connected client ;;;
  _start_watching client ;;;
  latest <- gets Server._latest_data ;;
  let finish : Method unit :=
    cs <- gets Server.clients ;;
    if decide (size cs = 1%nat) then _start_profiling else ret tt in
  match latest with
  | Some data =>
      r <- try_ (_send client data) ;;
      match r with
      | Ok _ => finish
      | Raise (SocketError errno msg) =>
          if decide (errno = EBADF \/ errno = EPIPE) then
            disconnected client
          else raise (SocketError errno msg)
      | Raise e => raise e
      end
  | None => finish
  end.

(** The broadcast pass of [profiling]: the [for client in self.clients]
    loop over the clients in iteration order, collecting
    [closed_clients]. *)
Fixpoint broadcast (data : bytes) (todo closed_clients : list Client)
  : Method (list Client) :=
  match todo with
  | [] => ret closed_clients
  | client :: todo' =>
      r <- try_ (_send client data) ;;
      match r with
      | Ok _ => broadcast data todo' closed_clients
      | Raise (SocketError errno _) =>
          if decide (errno = EPIPE) then
            broadcast data todo' (closed_clients ++ [client])
          else
            (* pass *)
            broadcast data todo' closed_clients
      | Raise e => raise e
      end
  end.

(** [for client in closed_clients: self.disconnected(client)]. *)
Fixpoint disconnect_all (closed_clients : list Client) : Method unit :=
  match closed_clients with
  | [] => ret tt
  | client :: rest => disconnected client ;;; disconnect_all rest
  end.

(** [while self.clients:] up to the [yield], or out of the loop to the
    end of the generator. *)
Definition loop_head : Method Generator :=
  cs <- gets Server.clients ;;
  if decide (cs = ∅) then
    _log_profiler_stopped ;;; ret GenFinished
  else
    modify (Server.with_profiler profiler_start) ;;;
    (* should sleep *)
    ret GenSuspended.

(** The loop body from the [yield] on: one round's stop, pack, store and
    broadcast, and the deferred disconnections. *)
Definition round : Method unit :=
  modify (Server.with_profiler profiler_stop) ;;;
  self <- gets id ;;
  data <- (fun s => (pack_stats (Server.profiler self)
                                (Server.pickle_protocol self), s)) ;;
  modify (Server.with_latest_data data) ;;;
  modify (Server.with_profiler profiler_clear) ;;;
  (* broadcast *)
  cs <- gets Server.clients ;;
  closed_clients <- broadcast data (set_iter cs) [] ;;
  (* handle disconnections. *)
  disconnect_all closed_clients.

(** [next()] on the generator [self.profiling()]: runs to the next
    [yield] or to the end.  A generator that raised or returned is
    finished. *)
Definition profiling_next (gen : Generator) : Method Generator :=
  match gen with
  | GenCreated => _log_profiler_started ;;; loop_head
  | GenSuspended => round ;;; loop_head
  | GenFinished => ret GenFinished
  end.

End Methods.

(** ** Vocabulary of the properties *)

(** A [for] loop over a set visits every member exactly once. *)
Definition set_iter_visits_each_once {set_iteration : SetIteration} : Prop :=
  forall cs : gset Client, set_iter cs ≡ₚ elements cs.

Section Vocabulary.

Context {errnos : Errnos}.
Context {Stats : Type} {pickle : Pickle Stats}.
Context {Profiler : Type} {profiler_ops : ProfilerOps Profiler Stats}.
Context {adapter : Adapter} {set_iteration : SetIteration}.

(** The server with some more events on its trace. *)
Definition emits (evs : list Event) (self : Server.t Profiler)
  : Server.t Profiler :=
  Server.mk (Server.profiler self) (Server.interval self)
    (Server.pickle_protocol self) (Server.clients self)
    (Server._latest_data self) (Server.trace self ++ evs).

(** The server as the first three statements of [connected] leave it: the
    client added, the connection logged, the client watched. *)
Definition joined (client : Client) (self : Server.t Profiler)
  : Server.t Profiler :=
  let cs := Server.clients self ∪ {[client]} in
  emits [EvLog (fmt_connected (_addr client) (size cs));
         EvStartWatching client]
        (Server.with_clients (fun _ => cs) self).

(** The server as [disconnected] leaves it when [client] was a member. *)
Definition left (client : Client) (self : Server.t Profiler)
  : Server.t Profiler :=
  let cs := Server.clients self ∖ {[client]} in
  emits [EvLog (fmt_disconnected (_addr client) (size cs)); EvClose client]
        (Server.with_clients (fun _ => cs) self).

(** The catch-up send of [connected] does not fail: there is nothing to
    send, or the backend delivers it. *)
Definition catch_up_succeeds (client : Client) (self : Server.t Profiler)
  : Prop :=
  match Server._latest_data self with
  | None => True
  | Some data =>
      _send_outcome (Server.trace (joined client self)) client data = None
  end.

(** The calls a backend makes on the server: the two entry points, and
    [next()] on a generator of [profiling()] in some state. *)
Inductive Call : Type :=
| CallConnected (client : Client)
| CallDisconnected (client : Client)
| CallNext (gen : Generator).

(** The server after a call, whether the call returned or raised. *)
Definition after (call : Call) (self : Server.t Profiler)
  : Server.t Profiler :=
  match call with
  | CallConnected client => snd (connected client self)
  | CallDisconnected client => snd (disconnected client self)
  | CallNext gen => snd (profiling_next gen self)
  end.

(** The server after a sequence of calls. *)
Definition after_all (calls : list Call) (self : Server.t Profiler)
  : Server.t Profiler :=
  fold_left (fun s call => after call s) calls self.

(** A send outcome that the broadcast pass takes for a closed client: a
    [socket.error] whose errno is EPIPE. *)
Definition is_broken_pipe (outcome : option exn) : bool :=
  match outcome with
  | Some (SocketError errno _) => bool_decide (errno = EPIPE)
  | _ => false
  end.

(** A send outcome that the broadcast pass gets past: delivered, or any
    [socket.error]. *)
Definition is_caught (outcome : option exn) : bool :=
  match outcome with
  | None | Some (SocketError _ _) => true
  | Some _ => false
  end.

(** [m] never assigns [_latest_data]. *)
Definition keeps_latest {A} (m : M (Server.t Profiler) A) : Prop :=
  forall self, Server._latest_data (snd (m self)) = Server._latest_data self.

(** [m] only adds events to the trace, and what it adds satisfies [P]. *)
Definition adds {A} (P : list Event -> Prop) (m : M (Server.t Profiler) A)
  : Prop :=
  forall self, exists evs,
    Server.trace (snd (m self)) = Server.trace self ++ evs /\ P evs.

(** Events among which there is no [_send]. *)
Definition no_sends (evs : list Event) : Prop := sends evs = [].

(** The outcome of every send in a round in which only [bad] is gone. *)
Definition only_broken (bad : Client) (msg : string) (client : Client)
  : option exn :=
  if decide (client = bad) then Some (SocketError EPIPE msg) else None.

(** Whom the sends among some events went to, in order. *)
Definition targets (evs : list Event) : list Client :=
  map (fun s => s.1.1) (sends evs).

(** The server before the [while] test that ends a round in which [data]
    was packed, the sends had the outcomes [out], and the deferred
    disconnections added the events [evs]. *)
Definition round_end (data : bytes) (out : Client -> option exn)
    (evs : list Event) (self : Server.t Profiler) : Server.t Profiler :=
  let order := set_iter (Server.clients self) in
  Server.mk (profiler_clear (profiler_stop (Server.profiler self)))
    (Server.interval self) (Server.pickle_protocol self)
    (Server.clients self
       ∖ list_to_set (filter (fun client => is_broken_pipe (out client)) order))
    (Some data)
    (Server.trace self
       ++ map (fun client => EvSend client data (out client)) order ++ evs).

(** Every run of [m], returning or raising, takes the server to one that
    [R] relates it to. *)
Definition relates {A} (R : relation (Server.t Profiler))
    (m : M (Server.t Profiler) A) : Prop :=
  forall self, R self (snd (m self)).

(** The client set has not grown. *)
Definition no_new_clients (self self' : Server.t Profiler) : Prop :=
  Server.clients self' ⊆ Server.clients self.

(** The settings given to [__init__] are as they were. *)
Definition same_settings (self self' : Server.t Profiler) : Prop :=
  Server.interval self' = Server.interval self /\
  Server.pickle_protocol self' = Server.pickle_protocol self.

End Vocabulary.

(** ** A concrete world to run the methods in *)

Module Sample.

(** Error numbers as on Linux. *)
Definition linux : Errnos :=
  {| EBADF := 9; EPIPE := 32; ECONNRESET := 104 |}.

(** A stand-in for [pickle] on byte strings: an opcode for the protocol,
    the bytes, and a STOP opcode; protocols are 0 to 5. *)
Definition stop_opcode : byte := Byte.x2e.

Definition dumps (stats : bytes) (protocol : Z) : result bytes :=
  if decide (0 <= protocol <= 5)%Z then
    Ok (Struct.byte_of_N (Z.to_N protocol) :: stats ++ [stop_opcode])
  else Raise PickleError.

Definition loads (data : bytes) : result bytes :=
  match data with
  | [] => Raise PickleError
  | _ :: body =>
      match reverse body with
      | last :: rev_stats =>
          if decide (last = stop_opcode) then Ok (reverse rev_stats)
          else Raise PickleError
      | [] => Raise PickleError
      end
  end.

Definition pickle : Pickle bytes :=
  {| pickle_dumps := dumps; pickle_loads := loads |}.

(** A profiler whose state is the statistics gathered so far: running one
    more interval adds a sample, [clear()] forgets them. *)
Definition profiler_ops : ProfilerOps bytes bytes :=
  {| profiler_start := fun st => st;
     profiler_stop := fun st => st ++ [Byte.x01];
     profiler_clear := fun _ => [];
     profiler_result := fun st => st |}.

(** Python visits the set in some order; here, the order of [elements]. *)
Definition iteration : SetIteration := {| set_iter := elements |}.

(** A backend on which every send succeeds. *)
Definition reliable : Adapter :=
  {| _send_outcome := fun _ _ _ => None;
     _addr := fun client => Some ("10.0.0.1"%string, 5000 + N.of_nat client) |}.

(** A backend on which every send to [bad] raises [e]. *)
Definition failing (bad : Client) (e : exn) : Adapter :=
  {| _send_outcome := fun _ client _ =>
       if decide (client = bad) then Some e else None;
     _addr := fun _ => None |}.

Definition A : Client := 1%nat.
Definition B : Client := 2%nat.
Definition C : Client := 3%nat.

(** The frame of a first round: header 3, then the pickled sample. *)
Definition frame1 : bytes :=
  [Byte.x00; Byte.x00; Byte.x00; Byte.x03; Byte.x02; Byte.x01; Byte.x2e].

(** An idle server that has never completed a round. *)
Definition fresh : Server.t bytes := Server.init [] Server.INTERVAL 2.

(** A server with clients [cs] whose last completed round produced
    [frame1]. *)
Definition serving (cs : gset Client) : Server.t bytes :=
  Server.mk [] Server.INTERVAL 2 cs (Some frame1) [].

(** A server with clients [cs] before its first round has completed. *)
Definition waiting (cs : gset Client) : Server.t bytes :=
  Server.mk [] Server.INTERVAL 2 cs None [].

End Sample.

(** * Properties *)

(** ** The length header *)

Module StructFacts.
Import Struct.

Lemma to_N_byte_of_N n : Byte.to_N (byte_of_N n) = n mod 256.
Proof.
  unfold byte_of_N.
  destruct (Byte.of_N (n mod 256)) as [b|] eqn:Hb.
  - by apply Byte.to_of_N.
  - apply Byte.of_N_None_iff in Hb.
    pose proof (N.mod_upper_bound n 256). lia.
Qed.

Lemma byte_of_to_N b : byte_of_N (Byte.to_N b) = b.
Proof.
  unfold byte_of_N. pose proof (Byte.to_N_bounded b).
  rewrite N.mod_small by lia. by rewrite Byte.of_to_N.
Qed.

Lemma pack_ok n : n <= uint32_max -> is_ok (pack n) = true.
Proof. intros Hn. unfold pack. by destruct (N.leb_spec n uint32_max); [|lia]. Qed.

Lemma pack_overflow n : uint32_max < n -> pack n = Raise StructError.
Proof. intros Hn. unfold pack. by destruct (N.leb_spec n uint32_max); [lia|]. Qed.

Lemma pack_length n header : pack n = Ok header -> length header = 4%nat.
Proof.
  unfold pack. destruct (n <=? uint32_max); [|done].
  by intros [= <-].
Qed.

(** The header read back as a number is the number packed. *)
Lemma be_value_pack n header : pack n = Ok header -> be_value header = n.
Proof.
  unfold pack. destruct (N.leb_spec n uint32_max) as [Hn|]; [|done].
  intros [= <-]. unfold be_value, uint32_max in *. cbn [fold_left].
  rewrite !to_N_byte_of_N, !N.shiftr_div_pow2.
  change (2 ^ 24) with (256 * 256 * 256).
  change (2 ^ 16) with (256 * 256). change (2 ^ 8) with 256.
  rewrite <- !N.Div0.div_div.
  set (q1 := n / 256). set (q2 := q1 / 256). set (q3 := q2 / 256).
  pose proof (N.Div0.div_mod n 256) as E0.
  pose proof (N.Div0.div_mod q1 256) as E1.
  pose proof (N.Div0.div_mod q2 256) as E2.
  fold q1 in E0. fold q2 in E1. fold q3 in E2.
  assert (q3 < 256) as H3.
  { unfold q3, q2, q1. rewrite !N.Div0.div_div.
    apply N.Div0.div_lt_upper_bound. lia. }
  rewrite (N.mod_small q3) by done. lia.
Qed.

Lemma lor_shiftl_add a b k : b < 2 ^ k -> N.lor (N.shiftl a k) b = a * 2 ^ k + b.
Proof.
  intros Hb. rewrite N.shiftl_mul_pow2.
  assert (N.land (a * 2 ^ k) b = 0) as Hdisjoint; last first.
  { by rewrite N.add_nocarry_lxor, N.lxor_lor. }
  apply N.bits_inj_iff. intros i. rewrite N.land_spec, N.bits_0.
  destruct (N.lt_ge_cases i k) as [Hi|Hi].
  - by rewrite N.mul_pow2_bits_low.
  - rewrite <- (N.mod_small b (2 ^ k)) by done.
    rewrite N.mod_pow2_bits_high by done. apply andb_false_r.
Qed.

(** [unpack] computes the big-endian value. *)
Lemma unpack_be_value data :
  length data = 4%nat -> unpack data = Ok (be_value data).
Proof.
  destruct data as [|b3 [|b2 [|b1 [|b0 [|]]]]]; try done. intros _.
  unfold unpack, be_value. simpl. f_equal.
  pose proof (Byte.to_N_bounded b0). pose proof (Byte.to_N_bounded b1).
  pose proof (Byte.to_N_bounded b2). pose proof (Byte.to_N_bounded b3).
  rewrite (lor_shiftl_add _ (Byte.to_N b0) 8) by (simpl; lia).
  rewrite (lor_shiftl_add (Byte.to_N b2) _ 16) by (simpl; lia).
  rewrite (lor_shiftl_add (Byte.to_N b3) _ 24) by (simpl; lia).
  change (2 ^ 24) with 16777216. change (2 ^ 16) with 65536.
  change (2 ^ 8) with 256. lia.
Qed.

Lemma unpack_pack n header : pack n = Ok header -> unpack header = Ok n.
Proof.
  intros Hp. rewrite unpack_be_value by by eapply pack_length.
  by rewrite (be_value_pack n).
Qed.

End StructFacts.

(** ** The frame codec *)

Section CodecFacts.

Context {errnos : Errnos}.
Context {Stats : Type} {pickle : Pickle Stats}.
Context {Profiler : Type} {profiler_ops : ProfilerOps Profiler Stats}.

Lemma recv_enough sock size :
  size <= N.of_nat (length (Socket.incoming sock)) ->
  recv sock size =
    (Ok (take (N.to_nat size) (Socket.incoming sock)),
     Socket.mk (drop (N.to_nat size) (Socket.incoming sock))).
Proof.
  intros Hsize. unfold recv, Socket.recv_waitall.
  rewrite length_take.
  by destruct (N.ltb_spec (N.of_nat (N.to_nat size `min`
    length (Socket.incoming sock))) size); [lia|].
Qed.

Lemma recv_closed_early sock size :
  N.of_nat (length (Socket.incoming sock)) < size ->
  recv sock size =
    (Raise (SocketError ECONNRESET "Connection closed"), Socket.mk []).
Proof.
  intros Hsize. unfold recv, Socket.recv_waitall.
  rewrite length_take, drop_ge by lia.
  by destruct (N.ltb_spec (N.of_nat (N.to_nat size `min`
    length (Socket.incoming sock))) size); [|lia].
Qed.

Lemma recv_app sock data rest :
  Socket.incoming sock = data ++ rest ->
  recv sock (N.of_nat (length data)) = (Ok data, Socket.mk rest).
Proof.
  intros Hin. rewrite recv_enough by (rewrite Hin, length_app; lia).
  by rewrite Nat2N.id, Hin, take_app_length, drop_app_length.
Qed.

(** The pieces of a frame that [pack_stats] returned. *)
Lemma pack_stats_inv profiler protocol frame :
  pack_stats profiler protocol = Ok frame ->
  exists header dump,
    pickle_dumps (profiler_result profiler) protocol = Ok dump /\
    Struct.pack (N.of_nat (length dump)) = Ok header /\
    frame = header ++ dump.
Proof.
  unfold pack_stats.
  destruct (pickle_dumps _ _) as [dump|]; [|done].
  destruct (Struct.pack _) as [header|] eqn:Hpack; [|done].
  intros [= <-]. eauto.
Qed.

(** [pack_stats] returns a frame exactly when the pickle fits 32 bits. *)
Lemma pack_stats_ok profiler protocol dump :
  pickle_dumps (profiler_result profiler) protocol = Ok dump ->
  N.of_nat (length dump) <= Struct.uint32_max ->
  exists header, length header = 4%nat /\
    pack_stats profiler protocol = Ok (header ++ dump).
Proof.
  intros Hdump Hfit. unfold pack_stats. rewrite Hdump. simpl.
  destruct (Struct.pack _) as [header|] eqn:Hpack.
  - exists header. split; [by eapply StructFacts.pack_length|done].
  - apply StructFacts.pack_ok in Hfit. by rewrite Hpack in Hfit.
Qed.

Lemma pack_stats_too_long profiler protocol dump :
  pickle_dumps (profiler_result profiler) protocol = Ok dump ->
  Struct.uint32_max < N.of_nat (length dump) ->
  pack_stats profiler protocol = Raise StructError.
Proof.
  intros Hdump Hlong. unfold pack_stats. rewrite Hdump. simpl.
  by rewrite StructFacts.pack_overflow.
Qed.

(** Decoding a stream that starts with a frame gives the statistics and
    leaves the rest of the stream. *)
Lemma recv_stats_frame profiler protocol frame rest :
  pickle_round_trips ->
  pack_stats profiler protocol = Ok frame ->
  recv_stats (Socket.mk (frame ++ rest)) =
    (Ok (profiler_result profiler), Socket.mk rest).
Proof.
  intros Hpickle (header & dump & Hdump & Hpack & ->)%pack_stats_inv.
  pose proof (StructFacts.pack_length _ _ Hpack) as Hlen.
  unfold recv_stats.
  change Struct.calcsize with (N.of_nat 4). rewrite <- Hlen.
  rewrite (recv_app _ header (dump ++ rest)) by by rewrite <- app_assoc.
  rewrite (StructFacts.unpack_pack _ _ Hpack).
  rewrite (recv_app _ dump rest) by done.
  by rewrite (Hpickle _ _ _ Hdump).
Qed.

(** C1. Round trip of the frame codec: whenever [pack_stats] encodes the
    profiler's statistics [s] under protocol [p] into a frame, [recv_stats]
    on a socket that delivers exactly that frame returns [s] (and has
    consumed the whole stream), given that [pickle] loads what it dumped. *)
Theorem recv_stats_pack_stats profiler protocol frame :
  pickle_round_trips ->
  pack_stats profiler protocol = Ok frame ->
  recv_stats (Socket.mk frame) =
    (Ok (profiler_result profiler), Socket.mk []).
Proof.
  intros Hpickle Hpack.
  rewrite <- (app_nil_r frame). by eapply recv_stats_frame.
Qed.

(** C5. [recv] reads exactly [size] bytes or fails: when the peer delivers
    at least [size] bytes before closing it returns the first [size] bytes
    of the stream, exactly [size] of them; when the peer closes before
    that (nothing or a shorter read) it raises the "Connection closed"
    socket error; and in no case does it return fewer than [size] bytes. *)
Theorem recv_exactly_or_closed sock size :
  (size <= N.of_nat (length (Socket.incoming sock)) ->
     exists data,
       recv sock size =
         (Ok data, Socket.mk (drop (N.to_nat size) (Socket.incoming sock))) /\
       data = take (N.to_nat size) (Socket.incoming sock) /\
       N.of_nat (length data) = size) /\
  (N.of_nat (length (Socket.incoming sock)) < size ->
     fst (recv sock size) =
       Raise (SocketError ECONNRESET "Connection closed")) /\
  (forall data, fst (recv sock size) = Ok data ->
     N.of_nat (length data) = size).
Proof.
  split; [|split].
  - intros Hsize. eexists. split; [by apply recv_enough|].
    split; [done|]. rewrite length_take. lia.
  - intros Hsize. by rewrite recv_closed_early.
  - intros data.
    destruct (N.le_gt_cases size (N.of_nat (length (Socket.incoming sock))))
      as [Hsize|Hsize].
    + rewrite recv_enough by done. intros [= <-]. rewrite length_take. lia.
    + by rewrite recv_closed_early.
Qed.

(** C6. Wire format: a frame returned by [pack_stats] is a four-byte
    header followed by the pickled payload and nothing else; the header,
    read as a big-endian unsigned number, is the payload's length in
    bytes. *)
Theorem pack_stats_wire_format profiler protocol frame :
  pack_stats profiler protocol = Ok frame ->
  exists header payload,
    pickle_dumps (profiler_result profiler) protocol = Ok payload /\
    frame = header ++ payload /\
    length header = 4%nat /\
    Struct.be_value header = N.of_nat (length payload) /\
    length frame = (4 + length payload)%nat.
Proof.
  intros (header & dump & Hdump & Hpack & ->)%pack_stats_inv.
  pose proof (StructFacts.pack_length _ _ Hpack) as Hlen.
  exists header, dump. repeat split; try done.
  - by apply StructFacts.be_value_pack.
  - rewrite length_app. lia.
Qed.

End CodecFacts.

(** ** The server: how each method runs *)

Section ServerFacts.

Context {errnos : Errnos}.
Context {Stats : Type} {pickle : Pickle Stats}.
Context {Profiler : Type} {profiler_ops : ProfilerOps Profiler Stats}.
Context {adapter : Adapter} {set_iteration : SetIteration}.

Implicit Types (self : Server.t Profiler) (client : Client) (data : bytes).

(** Runs the straight-line part of a method. *)
Ltac run_method :=
  unfold _log_connected, _log_disconnected, _log_profiler_started,
    _log_profiler_stopped, _close, _start_watching, _start_profiling, _send,
    log, bind, gets, modify, ret, raise, try_ in *;
  unfold joined, left, emits, Server.emit, Server.with_clients,
    Server.with_profiler, Server.with_latest_data in *;
  simpl in *; rewrite <- ?app_assoc in *; simpl in *.

Lemma emits_nil self : emits [] self = self.
Proof. destruct self. unfold emits. simpl. by rewrite app_nil_r. Qed.

Lemma emits_emits evs1 evs2 self :
  emits evs2 (emits evs1 self) = emits (evs1 ++ evs2) self.
Proof. unfold emits. simpl. by rewrite app_assoc. Qed.

Lemma emit_emits ev self : Server.emit ev self = emits [ev] self.
Proof. done. Qed.

Lemma emitted_app self self' evs :
  Server.trace self' = Server.trace self ++ evs ->
  Server.emitted self self' = evs.
Proof. unfold Server.emitted. intros ->. by rewrite drop_app_length. Qed.

Lemma emitted_self self : Server.emitted self self = [].
Proof. apply emitted_app. by rewrite app_nil_r. Qed.

Lemma scheduling_calls_app evs1 evs2 :
  scheduling_calls (evs1 ++ evs2) =
    (scheduling_calls evs1 + scheduling_calls evs2)%nat.
Proof. unfold scheduling_calls. by rewrite List.filter_app, length_app. Qed.

Lemma sends_app evs1 evs2 : sends (evs1 ++ evs2) = sends evs1 ++ sends evs2.
Proof.
  induction evs1 as [|ev evs1 IH]; [done|].
  destruct ev; simpl; by rewrite ?IH.
Qed.

(** *** [disconnected] *)

Lemma disconnected_absent client self :
  client ∉ Server.clients self -> disconnected client self = (Ok tt, self).
Proof.
  intros Hout. unfold disconnected. run_method.
  by destruct (decide (client ∈ Server.clients self)).
Qed.

Lemma disconnected_member client self :
  client ∈ Server.clients self ->
  disconnected client self = (Ok tt, left client self).
Proof.
  intros Hin. unfold disconnected. run_method.
  destruct (decide (client ∈ Server.clients self)); [|done].
  by run_method.
Qed.

Lemma disconnected_returns client self :
  fst (disconnected client self) = Ok tt.
Proof.
  destruct (decide (client ∈ Server.clients self)).
  - by rewrite disconnected_member.
  - by rewrite disconnected_absent.
Qed.

Lemma disconnected_removes client self :
  Server.clients (snd (disconnected client self)) =
    Server.clients self ∖ {[client]}.
Proof.
  destruct (decide (client ∈ Server.clients self)).
  - by rewrite disconnected_member.
  - rewrite disconnected_absent by done. simpl. set_solver.
Qed.

(** *** [connected] *)

(** What [connected] does once the catch-up send, if any, has gone
    through: the size check and the scheduling call. *)
Lemma connected_finish client self :
  catch_up_succeeds client self ->
  let self1 :=
    match Server._latest_data self with
    | None => joined client self
    | Some data => emits [EvSend client data None] (joined client self)
    end in
  connected client self =
    (Ok tt,
     if decide (size (Server.clients self ∪ {[client]}) = 1%nat)
     then emits [EvStartProfiling] self1 else self1).
Proof.
  unfold catch_up_succeeds, connected.
  destruct (Server._latest_data self) as [data|] eqn:Hlatest;
    run_method; rewrite Hlatest; run_method.
  - intros ->. destruct (decide (size _ = 1%nat)); by run_method.
  - intros _. destruct (decide (size _ = 1%nat)); by run_method.
Qed.

(** The catch-up send fails with a socket error that says the client is
    gone: [connected] hands over to [disconnected]. *)
Lemma connected_gone client self data errno msg :
  Server._latest_data self = Some data ->
  _send_outcome (Server.trace (joined client self)) client data =
    Some (SocketError errno msg) ->
  errno = EBADF \/ errno = EPIPE ->
  connected client self =
    disconnected client
      (emits [EvSend client data (Some (SocketError errno msg))]
             (joined client self)).
Proof.
  intros Hlatest Hout Herrno.
  unfold connected. run_method. rewrite Hlatest. run_method. rewrite Hout.
  run_method. by destruct (decide (errno = EBADF \/ errno = EPIPE)).
Qed.

(** The catch-up send fails otherwise: the exception leaves [connected]. *)
Lemma connected_raises client self data e :
  Server._latest_data self = Some data ->
  _send_outcome (Server.trace (joined client self)) client data = Some e ->
  (forall errno msg, e = SocketError errno msg ->
     errno <> EBADF /\ errno <> EPIPE) ->
  connected client self =
    (Raise e, emits [EvSend client data (Some e)] (joined client self)).
Proof.
  intros Hlatest Hout Hother.
  unfold connected. run_method. rewrite Hlatest. run_method. rewrite Hout.
  run_method. destruct e as [errno msg| | |]; try done.
  destruct (decide (errno = EBADF \/ errno = EPIPE)) as [Hgone|]; [|done].
  destruct (Hother errno msg eq_refl). tauto.
Qed.

(** The events of a [connected] call, case by case. *)
Lemma connected_trace_gone client self data errno msg :
  Server._latest_data self = Some data ->
  _send_outcome (Server.trace (joined client self)) client data =
    Some (SocketError errno msg) ->
  errno = EBADF \/ errno = EPIPE ->
  connected client self =
    (Ok tt,
     left client
       (emits [EvSend client data (Some (SocketError errno msg))]
              (joined client self))).
Proof.
  intros Hlatest Hout Herrno. rewrite (connected_gone _ _ data errno msg) by done.
  apply disconnected_member. simpl. set_solver.
Qed.

(** C8. [disconnected] is idempotent: for a client that is not in the set it
    returns at once and leaves the server as it was (no change of the set,
    no log line, no close); so calling it twice in a row is the same as
    calling it once. *)
Theorem disconnected_idempotent client self :
  (client ∉ Server.clients self ->
     disconnected client self = (Ok tt, self)) /\
  (disconnected client ;;; disconnected client) self =
     disconnected client self.
Proof.
  split; [apply disconnected_absent|].
  unfold bind at 1.
  destruct (disconnected client self) as [r self'] eqn:Hfirst.
  pose proof (disconnected_returns client self) as Hret.
  pose proof (disconnected_removes client self) as Hrem.
  rewrite Hfirst in Hret, Hrem. simpl in Hret, Hrem. subst r.
  apply disconnected_absent. rewrite Hrem. set_solver.
Qed.

(** C4. Catch-up delivery in [connected]: a latest frame, when there is one,
    is sent to the new client, once, right after the client was added,
    logged and watched.  If that send raises a socket error with errno
    EPIPE or EBADF, [disconnected(client)] runs and [connected] returns
    normally; if it raises anything else, the exception leaves
    [connected]; with no latest frame nothing is sent. *)
Theorem connected_catch_up client self :
  (forall data, Server._latest_data self = Some data ->
     sends (Server.emitted self (snd (connected client self))) =
       [(client, data,
         _send_outcome (Server.trace (joined client self)) client data)]) /\
  (forall data errno msg,
     Server._latest_data self = Some data ->
     _send_outcome (Server.trace (joined client self)) client data =
       Some (SocketError errno msg) ->
     errno = EBADF \/ errno = EPIPE ->
     connected client self =
       disconnected client
         (emits [EvSend client data (Some (SocketError errno msg))]
                (joined client self)) /\
     fst (connected client self) = Ok tt) /\
  (forall data e,
     Server._latest_data self = Some data ->
     _send_outcome (Server.trace (joined client self)) client data = Some e ->
     (forall errno msg, e = SocketError errno msg ->
        errno <> EBADF /\ errno <> EPIPE) ->
     fst (connected client self) = Raise e) /\
  (Server._latest_data self = None ->
     sends (Server.emitted self (snd (connected client self))) = []).
Proof.
  repeat split.
  - intros data Hlatest.
    destruct (_send_outcome (Server.trace (joined client self)) client data)
      as [e|] eqn:Hout.
    + assert ((exists errno msg, e = SocketError errno msg /\
                 (errno = EBADF \/ errno = EPIPE)) \/
              (forall errno msg, e = SocketError errno msg ->
                 errno <> EBADF /\ errno <> EPIPE))
        as [(errno & msg & -> & Herrno)|Hother].
      { destruct e as [errno msg| | |]; try by right.
        destruct (decide (errno = EBADF \/ errno = EPIPE)); [left; eauto|].
        right. intros ? ? [= <- <-]. tauto. }
      * rewrite (connected_trace_gone _ _ data errno msg) by done.
        erewrite emitted_app; [|simpl; by rewrite <- ?app_assoc]. done.
      * rewrite (connected_raises _ _ data e) by done.
        erewrite emitted_app; [|simpl; by rewrite <- ?app_assoc]. done.
    + pose proof (connected_finish client self) as Hfin.
      unfold catch_up_succeeds in Hfin. rewrite Hlatest in Hfin.
      rewrite (Hfin Hout).
      destruct (decide (size _ = 1%nat)); simpl;
        (erewrite emitted_app; [|simpl; by rewrite <- ?app_assoc]); done.
  - by apply connected_gone.
  - rewrite (connected_gone _ _ data errno msg) by done.
    apply disconnected_returns.
  - intros data e Hlatest Hout Hother. by rewrite (connected_raises _ _ data e).
  - intros Hlatest.
    pose proof (connected_finish client self) as Hfin.
    unfold catch_up_succeeds in Hfin. rewrite Hlatest in Hfin.
    rewrite (Hfin I).
    destruct (decide (size _ = 1%nat)); simpl;
      (erewrite emitted_app; [|simpl; by rewrite <- ?app_assoc]); done.
Qed.

(** A catch-up send that raises ends [connected] without a scheduling
    call, whichever way the exception is handled. *)
Lemma connected_failed_catch_up client self data e :
  Server._latest_data self = Some data ->
  _send_outcome (Server.trace (joined client self)) client data = Some e ->
  scheduling_calls (Server.emitted self (snd (connected client self))) = 0%nat.
Proof.
  intros Hlatest Hout.
  assert ((exists errno msg, e = SocketError errno msg /\
             (errno = EBADF \/ errno = EPIPE)) \/
          (forall errno msg, e = SocketError errno msg ->
             errno <> EBADF /\ errno <> EPIPE))
    as [(errno & msg & -> & Herrno)|Hother].
  { destruct e as [errno msg| | |]; try by right.
    destruct (decide (errno = EBADF \/ errno = EPIPE)); [left; eauto|].
    right. intros ? ? [= <- <-]. tauto. }
  - rewrite (connected_trace_gone _ _ data errno msg) by done.
    erewrite emitted_app; [|simpl; by rewrite <- ?app_assoc]. done.
  - rewrite (connected_raises _ _ data e) by done.
    erewrite emitted_app; [|simpl; by rewrite <- ?app_assoc]. done.
Qed.

(** C10. The catch-up send fails with EPIPE or EBADF for a client that is
    the only member once added: [connected] returns normally, the client set
    is empty afterwards, the client was closed by [disconnected], and
    [_start_profiling] was not called. *)
Theorem connected_only_client_gone client self data errno msg :
  Server.clients self ⊆ {[client]} ->
  Server._latest_data self = Some data ->
  _send_outcome (Server.trace (joined client self)) client data =
    Some (SocketError errno msg) ->
  errno = EBADF \/ errno = EPIPE ->
  fst (connected client self) = Ok tt /\
  Server.clients (snd (connected client self)) = ∅ /\
  Server.emitted self (snd (connected client self)) =
    [EvLog (fmt_connected (_addr client) 1);
     EvStartWatching client;
     EvSend client data (Some (SocketError errno msg));
     EvLog (fmt_disconnected (_addr client) 0);
     EvClose client] /\
  scheduling_calls (Server.emitted self (snd (connected client self))) = 0%nat.
Proof.
  intros Hsub Hlatest Hout Herrno.
  assert (Server.clients self ∪ {[client]} = {[client]}) as Hone by set_solver.
  split; [|split; [|split]].
  - rewrite (connected_trace_gone _ _ data errno msg) by done. done.
  - rewrite (connected_trace_gone _ _ data errno msg) by done. simpl.
    set_solver.
  - rewrite (connected_trace_gone _ _ data errno msg) by done.
    erewrite emitted_app; [|simpl; by rewrite <- ?app_assoc].
    rewrite Hone, size_singleton.
    replace ({[client]} ∖ {[client]} : gset Client) with (∅ : gset Client)
      by set_solver.
    by rewrite size_empty.
  - by eapply connected_failed_catch_up.
Qed.

(** C3, as the code has it.  A [connected] call makes at most one
    [_start_profiling] call, and makes it exactly when the catch-up send did
    not fail and the client set has size 1 once the client is added.  For a
    client that was not a member this is the step from the empty set to
    size 1; a call that leaves the set at another size schedules nothing. *)
Theorem connected_schedules client self :
  (scheduling_calls (Server.emitted self (snd (connected client self)))
     <= 1)%nat /\
  (scheduling_calls (Server.emitted self (snd (connected client self)))
     = 1%nat <->
   catch_up_succeeds client self /\
   size (Server.clients self ∪ {[client]}) = 1%nat) /\
  (client ∉ Server.clients self ->
   scheduling_calls (Server.emitted self (snd (connected client self)))
     = 1%nat ->
   Server.clients self = ∅ /\
   size (Server.clients (snd (connected client self))) = 1%nat) /\
  (size (Server.clients (snd (connected client self))) <> 1%nat ->
   scheduling_calls (Server.emitted self (snd (connected client self)))
     = 0%nat).
Proof.
  assert (catch_up_succeeds client self \/
          exists data e, Server._latest_data self = Some data /\
            _send_outcome (Server.trace (joined client self)) client data
              = Some e) as [Hok|(data & e & Hlatest & Hout)].
  { unfold catch_up_succeeds.
    destruct (Server._latest_data self) as [data|]; [|by left].
    destruct (_send_outcome (Server.trace (joined client self)) client data)
      as [e|] eqn:Hout; [|by left].
    right. by exists data, e. }
  - pose proof (connected_finish client self Hok) as Hrun. simpl in Hrun.
    assert (scheduling_calls (Server.emitted self (snd (connected client self)))
              = if decide (size (Server.clients self ∪ {[client]}) = 1%nat)
                then 1%nat else 0%nat) as Hn.
    { rewrite Hrun.
      destruct (Server._latest_data self), (decide (size _ = 1%nat)); simpl;
        (erewrite emitted_app; [|simpl; by rewrite <- ?app_assoc]); done. }
    assert (Server.clients (snd (connected client self))
              = Server.clients self ∪ {[client]}) as Hcs.
    { rewrite Hrun.
      by destruct (Server._latest_data self), (decide (size _ = 1%nat)). }
    rewrite Hn, Hcs.
    destruct (decide (size (Server.clients self ∪ {[client]}) = 1%nat))
      as [Hsize|Hsize].
    + split; [lia|]. split; [done|]. split; [|done].
      intros Hnew _. split; [|done].
      rewrite size_union, size_singleton in Hsize by set_solver.
      apply leibniz_equiv, size_empty_inv. lia.
    + split; [lia|]. split; [|split; [done|done]].
      split; [done|]. by intros [_ ?].
  - rewrite (connected_failed_catch_up _ _ data e) by done.
    split; [lia|]. split; [|split; [done|done]].
    split; [done|]. intros [Hok _]. unfold catch_up_succeeds in Hok.
    by rewrite Hlatest, Hout in Hok.
Qed.

(** *** What a method leaves alone *)

Lemma keeps_latest_bind {A B} (m : M (Server.t Profiler) A)
    (k : A -> M (Server.t Profiler) B) :
  keeps_latest (Profiler := Profiler) m -> (forall a, keeps_latest (Profiler := Profiler) (k a)) -> keeps_latest (Profiler := Profiler) (bind m k).
Proof.
  intros Hm Hk self. unfold bind. specialize (Hm self).
  destruct (m self) as [[a|e] self1]; simpl in *; [|done].
  by rewrite Hk.
Qed.

Lemma keeps_latest_try {A} (m : M (Server.t Profiler) A) :
  keeps_latest (Profiler := Profiler) m -> keeps_latest (Profiler := Profiler) (try_ m).
Proof.
  intros Hm self. unfold try_. specialize (Hm self).
  by destruct (m self).
Qed.

Lemma keeps_latest_send client data : keeps_latest (Profiler := Profiler) (_send client data).
Proof. intros self. unfold _send. by destruct (_send_outcome _ _ _). Qed.

Lemma keeps_latest_disconnected client : keeps_latest (Profiler := Profiler) (disconnected client).
Proof.
  intros self. destruct (decide (client ∈ Server.clients self)).
  - by rewrite disconnected_member.
  - by rewrite disconnected_absent.
Qed.


Lemma keeps_latest_broadcast data todo closed :
  keeps_latest (Profiler := Profiler) (broadcast data todo closed).
Proof.
  revert closed. induction todo as [|client todo IH]; intros closed; [done|].
  simpl. apply keeps_latest_bind; [apply keeps_latest_try, keeps_latest_send|].
  intros [?|[errno msg| | |]]; try done. by destruct (decide _).
Qed.

Lemma keeps_latest_disconnect_all closed : keeps_latest (Profiler := Profiler) (disconnect_all closed).
Proof.
  induction closed as [|client closed IH]; [done|]. simpl.
  apply keeps_latest_bind; [apply keeps_latest_disconnected|done].
Qed.

Lemma keeps_latest_loop_head : keeps_latest (Profiler := Profiler) loop_head.
Proof.
  unfold loop_head. apply keeps_latest_bind; [done|]. intros cs.
  by destruct (decide _).
Qed.

(** A round, past its straight-line part. *)
Lemma round_unfold self :
  round self =
    let self0 := Server.with_profiler profiler_stop self in
    match pack_stats (Server.profiler self0) (Server.pickle_protocol self0) with
    | Raise e => (Raise e, self0)
    | Ok data =>
        let self1 :=
          Server.with_profiler profiler_clear
            (Server.with_latest_data data self0) in
        (closed_clients <-
           broadcast data (set_iter (Server.clients self1)) [] ;;
         disconnect_all closed_clients) self1
    end.
Proof.
  unfold round. unfold bind at 1 2 3. simpl.
  by destruct (pack_stats _ _).
Qed.

(** A round assigns [_latest_data] the frame it packed, and only if the
    packing succeeded. *)
Lemma round_latest self :
  Server._latest_data (snd (round self)) =
    match pack_stats (profiler_stop (Server.profiler self))
                     (Server.pickle_protocol self) with
    | Ok data => Some data
    | Raise _ => Server._latest_data self
    end.
Proof.
  rewrite round_unfold. simpl.
  destruct (pack_stats _ _) as [data|e]; [|done].
  rewrite keeps_latest_bind; [done|apply keeps_latest_broadcast|].
  intros closed. apply keeps_latest_disconnect_all.
Qed.

Lemma profiling_next_latest gen self :
  Server._latest_data (snd (profiling_next gen self)) =
    match gen, pack_stats (profiler_stop (Server.profiler self))
                          (Server.pickle_protocol self) with
    | GenSuspended, Ok data => Some data
    | _, _ => Server._latest_data self
    end.
Proof.
  destruct gen; simpl.
  - assert (keeps_latest (Profiler := Profiler)
              (_log_profiler_started ;;; loop_head)) as Hkeeps.
    { apply keeps_latest_bind; [done|]. intros _. apply keeps_latest_loop_head. }
    by rewrite Hkeeps.
  - unfold bind. pose proof (round_latest self) as Hround.
    destruct (round self) as [[[]|e] self1]; simpl in *;
      [rewrite keeps_latest_loop_head|]; by rewrite Hround.
  - done.
Qed.


End ServerFacts.

(** ** The round loop *)

Section RoundFacts.

Context {errnos : Errnos}.
Context {Stats : Type} {pickle : Pickle Stats}.
Context {Profiler : Type} {profiler_ops : ProfilerOps Profiler Stats}.
Context {adapter : Adapter} {set_iteration : SetIteration}.

Implicit Types (self : Server.t Profiler) (client : Client) (data : bytes).

Lemma send_caught client data self outcome :
  _send_outcome (Server.trace self) client data = outcome ->
  try_ (_send client data) self =
    (Ok (match outcome with None => Ok tt | Some e => Raise e end),
     emits [EvSend client data outcome] self).
Proof. intros <-. unfold try_, _send. by destruct (_send_outcome _ _ _). Qed.

(** The broadcast pass when every send is delivered or raises a socket
    error: every client is sent to, in order, nothing is raised, and the
    clients whose send raised EPIPE come back as [closed_clients]. *)
Lemma broadcast_run data (out : Client -> option exn) todo closed self :
  (forall h client, client ∈ todo -> _send_outcome h client data = out client) ->
  (forall client, client ∈ todo -> is_caught (out client) = true) ->
  broadcast data todo closed self =
    (Ok (closed ++ filter (fun client => is_broken_pipe (out client)) todo),
     emits (map (fun client => EvSend client data (out client)) todo) self).
Proof.
  revert closed self.
  induction todo as [|client todo IH]; intros closed self Hout Hcaught.
  { simpl. by rewrite app_nil_r, emits_nil. }
  cbn [broadcast]. unfold bind at 1.
  rewrite (send_caught _ _ _ (out client)) by (apply Hout; set_solver).
  specialize (Hcaught client ltac:(set_solver)) as Hc.
  assert (forall closed',
    broadcast data todo closed' (emits [EvSend client data (out client)] self)
    = (Ok (closed' ++ filter (fun c => is_broken_pipe (out c)) todo),
       emits (map (fun c => EvSend c data (out c)) (client :: todo)) self))
    as Hrest.
  { intros closed'. rewrite IH.
    - by rewrite emits_emits.
    - intros. apply Hout. set_solver.
    - intros. apply Hcaught. set_solver. }
  rewrite filter_cons.
  destruct (out client) as [[errno msg| | |]|] eqn:Hclient; try done; simpl.
  { destruct (decide (errno = EPIPE)) as [->|Hne].
    - rewrite Hrest, bool_decide_eq_true_2 by done. simpl.
      by rewrite <- app_assoc.
    - rewrite Hrest, bool_decide_eq_false_2 by done. done. }

Qed.

Lemma disconnect_all_one client self :
  client ∈ Server.clients self ->
  disconnect_all [client] self = (Ok tt, left client self).
Proof.
  intros Hin. simpl. unfold bind. by rewrite disconnected_member.
Qed.

Lemma loop_head_active self :
  Server.clients self <> ∅ ->
  loop_head self = (Ok GenSuspended, Server.with_profiler profiler_start self).
Proof.
  intros Hne. unfold loop_head, bind, gets. simpl.
  by destruct (decide (Server.clients self = ∅)).
Qed.

Lemma loop_head_idle self :
  Server.clients self = ∅ ->
  loop_head self = (Ok GenFinished, emits [EvLog fmt_profiler_stopped] self).
Proof.
  intros He. unfold loop_head, bind, gets. simpl.
  by destruct (decide (Server.clients self = ∅)).
Qed.

(** *** Events a method adds *)

Lemma adds_bind {A B} (P : list Event -> Prop)
    (m : M (Server.t Profiler) A) (k : A -> M (Server.t Profiler) B) :
  (forall evs1 evs2, P evs1 -> P evs2 -> P (evs1 ++ evs2)) ->
  adds P m -> (forall a, adds P (k a)) -> adds P (bind m k).
Proof.
  intros Happ Hm Hk self. unfold bind.
  destruct (Hm self) as (evs1 & Htrace1 & HP1).
  destruct (m self) as [[a|e] self1]; simpl in *; [|eauto].
  destruct (Hk a self1) as (evs2 & Htrace2 & HP2).
  exists (evs1 ++ evs2). rewrite Htrace2, Htrace1, app_assoc. auto.
Qed.

Lemma no_sends_app evs1 evs2 :
  no_sends evs1 -> no_sends evs2 -> no_sends (evs1 ++ evs2).
Proof. unfold no_sends. rewrite sends_app. by intros -> ->. Qed.

Lemma adds_disconnected client :
  adds (Profiler := Profiler) no_sends (disconnected client).
Proof.
  intros self. destruct (decide (client ∈ Server.clients self)).
  - rewrite disconnected_member by done. simpl.
    eexists. split; [reflexivity|done].
  - rewrite disconnected_absent by done. exists []. by rewrite app_nil_r.
Qed.

Lemma adds_disconnect_all closed :
  adds (Profiler := Profiler) no_sends (disconnect_all closed).
Proof.
  induction closed as [|client closed IH].
  - intros self. exists []. by rewrite app_nil_r.
  - simpl. apply adds_bind; [apply no_sends_app|apply adds_disconnected|done].
Qed.

Lemma adds_loop_head : adds (Profiler := Profiler) no_sends loop_head.
Proof.
  intros self. destruct (decide (Server.clients self = ∅)).
  - rewrite loop_head_idle by done. simpl.
    eexists. split; [reflexivity|done].
  - rewrite loop_head_active by done. exists []. by rewrite app_nil_r.
Qed.

(** Whatever the backend does, the broadcast pass sends to an initial part
    of the clients it iterates over, each once, in order. *)
Lemma adds_broadcast data todo closed :
  adds (Profiler := Profiler)
    (fun evs => exists k, targets evs = take k todo)
    (broadcast data todo closed).
Proof.
  revert closed. induction todo as [|client todo IH]; intros closed self.
  { exists []. rewrite app_nil_r. split; [done|]. by exists 0%nat. }
  cbn [broadcast]. unfold bind at 1.
  rewrite (send_caught _ _ _ _ eq_refl).
  set (outcome := _send_outcome (Server.trace self) client data).
  set (ev := EvSend client data outcome).
  assert (forall closed', exists evs,
    Server.trace (snd (broadcast data todo closed' (emits [ev] self)))
      = Server.trace self ++ evs /\
    exists k, targets evs = take k (client :: todo)) as Hrest.
  { intros closed'.
    destruct (IH closed' (emits [ev] self)) as (evs & Htrace & k & Hk).
    exists (ev :: evs). split.
    - rewrite Htrace. simpl. by rewrite <- app_assoc.
    - exists (S k). unfold targets in *. simpl. by rewrite Hk. }
  destruct outcome as [[errno msg| | |]|]; simpl; try apply Hrest.
  - destruct (decide (errno = EPIPE)); apply Hrest.
  - exists [ev]. split; [done|]. by exists 1%nat.
  - exists [ev]. split; [done|]. by exists 1%nat.
  - exists [ev]. split; [done|]. by exists 1%nat.
Qed.

(** A step of the round loop sends to an initial part of the clients in
    iteration order, and to nobody else. *)
Lemma profiling_next_targets gen self :
  exists k,
    targets (Server.emitted self (snd (profiling_next gen self)))
      = take k (set_iter (Server.clients self)).
Proof.
  destruct gen; simpl.
  - exists 0%nat. unfold bind. simpl.
    destruct (adds_loop_head (Server.emit
      (EvLog (fmt_profiler_started (Server.interval self))) self))
      as (evs & Htrace & Hevs).
    destruct (loop_head _) as [[g|e] self1]; simpl in *;
      (erewrite emitted_app; [|rewrite Htrace; by rewrite <- app_assoc]);
      unfold targets; simpl; by rewrite Hevs.
  - unfold bind. rewrite round_unfold. simpl.
    destruct (pack_stats _ _) as [data|e]; simpl.
    2:{ exists 0%nat.
        rewrite (emitted_app _ _ []); [done|simpl; by rewrite app_nil_r]. }
    set (self1 := Server.with_profiler _ _).
    unfold bind.
    destruct (adds_broadcast data (set_iter (Server.clients self)) [] self1)
      as (evs1 & Htrace1 & k & Hk).
    change (Server.clients self1) with (Server.clients self).
    exists k.
    destruct (broadcast data _ [] self1) as [[closed|e] self2]; simpl in *.
    2:{ erewrite emitted_app; [|exact Htrace1]. done. }
    destruct (adds_disconnect_all closed self2) as (evs2 & Htrace2 & Hevs2).
    destruct (disconnect_all closed self2) as [[[]|e] self3]; simpl in *.
    2:{ erewrite emitted_app; [|rewrite Htrace2, Htrace1; by rewrite <- app_assoc].
        unfold targets in *. by rewrite sends_app, Hevs2, app_nil_r. }
    destruct (adds_loop_head self3) as (evs3 & Htrace3 & Hevs3).
    destruct (loop_head self3) as [[g|e] self4]; simpl in *;
      (erewrite emitted_app;
         [|rewrite Htrace3, Htrace2, Htrace1; by rewrite <- !app_assoc]);
      unfold targets in *; by rewrite !sends_app, Hevs2, Hevs3, !app_nil_r.
  - exists 0%nat. by rewrite emitted_self.
Qed.

(** *** One client gone, the others served *)

Lemma is_broken_pipe_only_broken bad msg client :
  is_broken_pipe (only_broken bad msg client) = bool_decide (client = bad).
Proof.
  unfold only_broken. destruct (decide (client = bad)) as [->|Hne]; simpl.
  - by rewrite !bool_decide_eq_true_2.
  - by rewrite bool_decide_eq_false_2.
Qed.

Lemma delivered_only_broken data bad msg todo evs :
  delivered data
    (map (fun client => EvSend client data (only_broken bad msg client)) todo
     ++ evs)
  = filter (fun client => client <> bad) todo ++ delivered data evs.
Proof.
  induction todo as [|client todo IH]; [done|].
  rewrite filter_cons. simpl. unfold only_broken at 1.
  destruct (decide (client = bad)) as [->|Hne].
  - by destruct (decide (bad <> bad)).
  - destruct (decide (data = data)); [|done].
    destruct (decide (client <> bad)); [|done]. simpl. by rewrite IH.
Qed.

Lemma elements_three (a b c : Client) :
  a <> b -> b <> c -> a <> c ->
  elements ({[a; b; c]} : gset Client) ≡ₚ [a; b; c].
Proof.
  intros Hab Hbc Hac. apply NoDup_Permutation.
  - apply NoDup_elements.
  - repeat constructor; set_solver.
  - intros x. rewrite elem_of_elements. set_solver.
Qed.

Lemma elements_two (a c : Client) :
  a <> c -> elements ({[a; c]} : gset Client) ≡ₚ [a; c].
Proof.
  intros Hac. apply NoDup_Permutation.
  - apply NoDup_elements.
  - repeat constructor; set_solver.
  - intros x. rewrite elem_of_elements. set_solver.
Qed.

(** The round in which exactly [b] of the three clients is gone, written
    out: every client is sent the frame, then [b] is disconnected, then
    the loop goes on to its next [yield]. *)
Lemma round_one_broken a b c msg data self :
  set_iter_visits_each_once ->
  a <> b -> b <> c -> a <> c ->
  Server.clients self = {[a; b; c]} ->
  pack_stats (profiler_stop (Server.profiler self))
             (Server.pickle_protocol self) = Ok data ->
  (forall h client, client ∈ [a; b; c] ->
     _send_outcome h client data = only_broken b msg client) ->
  profiling_next GenSuspended self =
    (Ok GenSuspended,
     Server.with_profiler profiler_start
       (left b
          (emits
             (map (fun client => EvSend client data (only_broken b msg client))
                  (set_iter (Server.clients self)))
             (Server.with_profiler profiler_clear
                (Server.with_latest_data data
                   (Server.with_profiler profiler_stop self)))))).
Proof.
  intros Hiter Hab Hbc Hac Hcs Hpack Hout.
  assert (set_iter (Server.clients self) ≡ₚ [a; b; c]) as Horder
    by (etrans; [apply Hiter|]; rewrite Hcs; by apply elements_three).
  cbn [profiling_next]. unfold bind at 1. rewrite round_unfold. simpl.
  rewrite Hpack. unfold bind at 1. simpl.
  rewrite (broadcast_run data (only_broken b msg)); cycle 1.
  { intros h client Hin. apply Hout. by rewrite <- Horder. }
  { intros client _. unfold only_broken. by destruct (decide _). }
  simpl.
  assert (filter (fun client => is_broken_pipe (only_broken b msg client))
            (set_iter (Server.clients self)) = [b]) as ->.
  { apply Permutation_singleton_r.
    rewrite Horder.
    rewrite !filter_cons, filter_nil, !is_broken_pipe_only_broken.
    rewrite (bool_decide_eq_false_2 (a = b)) by done.
    rewrite (bool_decide_eq_true_2 (b = b)) by done.
    rewrite (bool_decide_eq_false_2 (c = b)) by done.
    by repeat (destruct (decide _); try done). }
  rewrite disconnect_all_one by (simpl; rewrite Hcs; set_solver).
  rewrite loop_head_active; [done|].
  simpl. rewrite Hcs. set_solver.
Qed.

(** C7. Partial-failure isolation.  In a round over clients A, B and C in
    which the send to B raises EPIPE and the sends to A and C succeed: the
    round ends at the next [yield]; B has left the client set, A and C stay;
    A and C were each delivered the round's frame exactly once; all three
    sends come before B's disconnection, whatever B's place in the
    iteration order; and the sends of the following round go to A and C
    only, each at most once. *)
Theorem round_isolates_broken_client a b c msg data self :
  set_iter_visits_each_once ->
  a <> b -> b <> c -> a <> c ->
  Server.clients self = {[a; b; c]} ->
  pack_stats (profiler_stop (Server.profiler self))
             (Server.pickle_protocol self) = Ok data ->
  (forall h client, client ∈ [a; b; c] ->
     _send_outcome h client data = only_broken b msg client) ->
  fst (profiling_next GenSuspended self) = Ok GenSuspended /\
  Server.clients (snd (profiling_next GenSuspended self)) = {[a; c]} /\
  delivered data
    (Server.emitted self (snd (profiling_next GenSuspended self)))
    ≡ₚ [a; c] /\
  (exists order, order ≡ₚ [a; b; c] /\
     Server.emitted self (snd (profiling_next GenSuspended self)) =
       map (fun client => EvSend client data (only_broken b msg client)) order
       ++ [EvLog (fmt_disconnected (_addr b) 2); EvClose b]) /\
  targets
    (Server.emitted (snd (profiling_next GenSuspended self))
       (snd (profiling_next GenSuspended
               (snd (profiling_next GenSuspended self)))))
    ⊆+ [a; c].
Proof.
  intros Hiter Hab Hbc Hac Hcs Hpack Hout.
  assert (set_iter (Server.clients self) ≡ₚ [a; b; c]) as Horder
    by (etrans; [apply Hiter|]; rewrite Hcs; by apply elements_three).
  assert (({[a; b; c]} : gset Client) ∖ {[b]} = {[a; c]}) as Hleft
    by set_solver.
  rewrite (round_one_broken a b c msg data self) by done.
  cbn [fst snd].
  assert (Server.emitted self
            (Server.with_profiler profiler_start
               (left b
                  (emits
                     (map (fun client =>
                             EvSend client data (only_broken b msg client))
                          (set_iter (Server.clients self)))
                     (Server.with_profiler profiler_clear
                        (Server.with_latest_data data
                           (Server.with_profiler profiler_stop self))))))
          = map (fun client => EvSend client data (only_broken b msg client))
                (set_iter (Server.clients self))
            ++ [EvLog (fmt_disconnected (_addr b) 2); EvClose b]) as Hevs.
  { apply emitted_app. simpl. rewrite <- app_assoc. rewrite Hcs, Hleft.
    rewrite size_union, !size_singleton by set_solver. done. }
  split; [done|]. split; [simpl; by rewrite Hcs|].
  split; [|split].
  - rewrite Hevs, delivered_only_broken. simpl. rewrite app_nil_r.
    rewrite Horder.
    rewrite !filter_cons, filter_nil.
    by repeat (destruct (decide _); try done).
  - exists (set_iter (Server.clients self)). split; done.
  - match goal with
    | |- targets (Server.emitted ?s' (snd (profiling_next _ ?s'))) ⊆+ _ =>
        destruct (profiling_next_targets GenSuspended s') as (k & ->);
        assert (Server.clients s' = {[a; c]}) as ->
          by (simpl; by rewrite Hcs)
    end.
    rewrite <- (elements_two a c) by done. rewrite <- (Hiter {[a; c]}).
    apply sublist_submseteq, sublist_take.
Qed.

End RoundFacts.

(** * The properties at work on the sample world *)

Lemma sample_pickle_round_trips : pickle_round_trips (pickle := Sample.pickle).
Proof.
  intros stats protocol dump. simpl. unfold Sample.dumps, Sample.loads.
  destruct (decide _); [|done]. intros [= <-].
  rewrite reverse_app. simpl.
  destruct (decide (Sample.stop_opcode = Sample.stop_opcode)); [|done].
  by rewrite reverse_involutive.
Qed.

Lemma recv_stats_pack_stats_sample :
  recv_stats (errnos := Sample.linux) (pickle := Sample.pickle)
    (Socket.mk [Byte.x00; Byte.x00; Byte.x00; Byte.x04;
                Byte.x02; Byte.x41; Byte.x42; Byte.x2e])
  = (Ok [Byte.x41; Byte.x42], Socket.mk []).
Proof.
  apply (recv_stats_pack_stats (errnos := Sample.linux)
           (pickle := Sample.pickle) (profiler_ops := Sample.profiler_ops)
           [Byte.x41; Byte.x42] 2).
  - apply sample_pickle_round_trips.
  - reflexivity.
Defined.

Lemma pack_stats_wire_format_sample :
  exists header payload,
    Sample.dumps [Byte.x41; Byte.x42] 2 = Ok payload /\
    [Byte.x00; Byte.x00; Byte.x00; Byte.x04;
     Byte.x02; Byte.x41; Byte.x42; Byte.x2e] = header ++ payload /\
    length header = 4%nat /\
    Struct.be_value header = N.of_nat (length payload) /\
    length [Byte.x00; Byte.x00; Byte.x00; Byte.x04;
            Byte.x02; Byte.x41; Byte.x42; Byte.x2e]
      = (4 + length payload)%nat.
Proof.
  apply (pack_stats_wire_format (pickle := Sample.pickle)
           (profiler_ops := Sample.profiler_ops) [Byte.x41; Byte.x42] 2).
  reflexivity.
Defined.

Lemma recv_exactly_or_closed_sample :
  fst (recv (errnos := Sample.linux)
         (Socket.mk [Byte.x00; Byte.x00; Byte.x00]) 4)
    = Raise (SocketError 104 "Connection closed").
Proof.
  apply (recv_exactly_or_closed (errnos := Sample.linux)
           (Socket.mk [Byte.x00; Byte.x00; Byte.x00]) 4).
  simpl. lia.
Defined.

Lemma disconnected_idempotent_sample :
  disconnected (adapter := Sample.reliable) Sample.B
    (Sample.serving {[Sample.A]})
  = (Ok tt, Sample.serving {[Sample.A]}).
Proof.
  apply (disconnected_idempotent (adapter := Sample.reliable)).
  unfold Sample.A, Sample.B. simpl. set_solver.
Defined.

Lemma connected_catch_up_sample :
  sends (Server.emitted (Sample.waiting ∅)
           (snd (connected (errnos := Sample.linux)
                   (adapter := Sample.reliable) Sample.A (Sample.waiting ∅))))
  = [].
Proof.
  apply (connected_catch_up (errnos := Sample.linux)
           (adapter := Sample.reliable)).
  reflexivity.
Defined.

Lemma connected_only_client_gone_sample :
  let self := Sample.serving ∅ in
  let run := connected (errnos := Sample.linux)
               (adapter := Sample.failing Sample.A
                             (SocketError 32 "Broken pipe"))
               Sample.A self in
  fst run = Ok tt /\
  Server.clients (snd run) = ∅ /\
  Server.emitted self (snd run) =
    [EvLog "A client connected (total: 1)";
     EvStartWatching Sample.A;
     EvSend Sample.A Sample.frame1 (Some (SocketError 32 "Broken pipe"));
     EvLog "A client disconnected (total: 0)";
     EvClose Sample.A] /\
  scheduling_calls (Server.emitted self (snd run)) = 0%nat.
Proof.
  apply (connected_only_client_gone (errnos := Sample.linux)
           (adapter := Sample.failing Sample.A (SocketError 32 "Broken pipe"))
           Sample.A (Sample.serving ∅) Sample.frame1 32 "Broken pipe").
  - simpl. set_solver.
  - reflexivity.
  - reflexivity.
  - right. reflexivity.
Defined.

(** C3 as stated fails on the code, in both directions.  A repeated
    [connected] for the only member schedules the loop again, although the
    set does not go from empty to size 1; and a first client whose catch-up
    send raises ECONNRESET takes the set from empty to size 1 without any
    scheduling call. *)
Lemma connected_schedules_not_only_on_first :
  (Sample.A ∈ Server.clients (Sample.waiting {[Sample.A]}) /\
   scheduling_calls
     (Server.emitted (Sample.waiting {[Sample.A]})
        (snd (connected (errnos := Sample.linux)
                (adapter := Sample.reliable)
                Sample.A (Sample.waiting {[Sample.A]}))))
     = 1%nat) /\
  (Server.clients (Sample.serving ∅) = ∅ /\
   size (Server.clients
           (snd (connected (errnos := Sample.linux)
                   (adapter := Sample.failing Sample.A
                      (SocketError 104 "Connection reset by peer"))
                   Sample.A (Sample.serving ∅)))) = 1%nat /\
   scheduling_calls
     (Server.emitted (Sample.serving ∅)
        (snd (connected (errnos := Sample.linux)
                (adapter := Sample.failing Sample.A
                   (SocketError 104 "Connection reset by peer"))
                Sample.A (Sample.serving ∅))))
     = 0%nat).
Proof.
  split; [split|split; [|split]].
  - simpl. set_solver.
  - vm_compute. reflexivity.
  - reflexivity.
  - vm_compute. reflexivity.
  - vm_compute. reflexivity.
Qed.

Lemma connected_schedules_sample :
  scheduling_calls
    (Server.emitted (Sample.waiting ∅)
       (snd (connected (errnos := Sample.linux) (adapter := Sample.reliable)
               Sample.A (Sample.waiting ∅))))
  = 1%nat.
Proof.
  apply (connected_schedules (errnos := Sample.linux)
           (adapter := Sample.reliable) Sample.A (Sample.waiting ∅)).
  split; [exact I|]. vm_compute. reflexivity.
Defined.


(** C2.  The broadcast pass of [profiling] on the code, where the claim has
    a send failure other than broken pipe propagate out of the round loop.
    With clients A, B and C and the send to B raising ECONNRESET, the round
    raises nothing: it reaches the next [yield], every client of the pass
    has been sent the frame, B's failure among them, B is still a client,
    and nobody has been disconnected.  The [pass] of the broadcast loop
    stands where [connected] has [raise]. *)
Theorem broadcast_ignores_connection_reset :
  let self := Sample.serving {[Sample.A; Sample.B; Sample.C]} in
  let reset := SocketError 104 "Connection reset by peer" in
  let run := profiling_next (errnos := Sample.linux) (pickle := Sample.pickle)
               (profiler_ops := Sample.profiler_ops)
               (adapter := Sample.failing Sample.B reset)
               (set_iteration := Sample.iteration) GenSuspended self in
  is_broken_pipe (errnos := Sample.linux) (Some reset) = false /\
  fst run = Ok GenSuspended /\
  Server.emitted self (snd run) =
    [EvSend Sample.B Sample.frame1 (Some reset);
     EvSend Sample.C Sample.frame1 None;
     EvSend Sample.A Sample.frame1 None] /\
  Sample.B ∈ Server.clients (snd run).
Proof.
  split; [|split; [|split]].
  - vm_compute. reflexivity.
  - vm_compute. reflexivity.
  - vm_compute. reflexivity.
  - apply elem_of_elements. vm_compute. set_solver.
Qed.

Lemma round_isolates_broken_client_sample :
  let self := Sample.serving {[Sample.A; Sample.B; Sample.C]} in
  let gone := only_broken (errnos := Sample.linux) Sample.B "Broken pipe" in
  let next := profiling_next (errnos := Sample.linux) (pickle := Sample.pickle)
                (profiler_ops := Sample.profiler_ops)
                (adapter := Sample.failing Sample.B
                              (SocketError 32 "Broken pipe"))
                (set_iteration := Sample.iteration) GenSuspended in
  fst (next self) = Ok GenSuspended /\
  Server.clients (snd (next self)) = {[Sample.A; Sample.C]} /\
  delivered Sample.frame1 (Server.emitted self (snd (next self)))
    ≡ₚ [Sample.A; Sample.C] /\
  (exists order, order ≡ₚ [Sample.A; Sample.B; Sample.C] /\
     Server.emitted self (snd (next self)) =
       map (fun client => EvSend client Sample.frame1 (gone client)) order
       ++ [EvLog (fmt_disconnected None 2); EvClose Sample.B]) /\
  targets
    (Server.emitted (snd (next self)) (snd (next (snd (next self)))))
    ⊆+ [Sample.A; Sample.C].
Proof.
  apply (round_isolates_broken_client (errnos := Sample.linux)
           (pickle := Sample.pickle) (profiler_ops := Sample.profiler_ops)
           (adapter := Sample.failing Sample.B (SocketError 32 "Broken pipe"))
           (set_iteration := Sample.iteration)
           Sample.A Sample.B Sample.C "Broken pipe" Sample.frame1
           (Sample.serving {[Sample.A; Sample.B; Sample.C]})).
  - intros cs. reflexivity.
  - discriminate.
  - discriminate.
  - discriminate.
  - reflexivity.
  - reflexivity.
  - intros h client _. reflexivity.
Defined.

(** * More of the codec *)

(** The header and the length are each other's inverse: [struct.pack]
    returns [header] for [n] exactly when [struct.unpack] returns [n] for
    [header]. *)
Theorem struct_pack_unpack_inverse n header :
  Struct.pack n = Ok header <-> Struct.unpack header = Ok n.
Proof.
  split; [apply StructFacts.unpack_pack|].
  destruct header as [|b3 [|b2 [|b1 [|b0 [|]]]]]; try done.
  rewrite StructFacts.unpack_be_value by done. intros [= <-].
  unfold Struct.be_value. cbn [fold_left].
  pose proof (Byte.to_N_bounded b0). pose proof (Byte.to_N_bounded b1).
  pose proof (Byte.to_N_bounded b2). pose proof (Byte.to_N_bounded b3).
  set (n0 := Byte.to_N b0) in *. set (n1 := Byte.to_N b1) in *.
  set (n2 := Byte.to_N b2) in *. set (n3 := Byte.to_N b3) in *.
  set (n := (((0 * 256 + n3) * 256 + n2) * 256 + n1) * 256 + n0).
  assert (n = ((n3 * 256 + n2) * 256 + n1) * 256 + n0) as Hn by lia.
  unfold Struct.pack, Struct.uint32_max.
  destruct (N.leb_spec n 4294967295) as [_|Hbig]; [|lia].
  rewrite !N.shiftr_div_pow2.
  change (2 ^ 24) with 16777216. change (2 ^ 16) with 65536.
  change (2 ^ 8) with 256.
  assert (n / 16777216 = 0 * 256 + n3) as ->
    by (symmetry; apply (N.div_unique _ _ _ (n2 * 65536 + n1 * 256 + n0)); lia).
  assert (n / 65536 = n3 * 256 + n2) as ->
    by (symmetry; apply (N.div_unique _ _ _ (n1 * 256 + n0)); lia).
  assert (n / 256 = (n3 * 256 + n2) * 256 + n1) as ->
    by (symmetry; apply (N.div_unique _ _ _ n0); lia).
  rewrite Hn.
  assert (forall q b, Struct.byte_of_N (q * 256 + Byte.to_N b) = b) as Hbyte.
  { intros q b. rewrite <- (StructFacts.byte_of_to_N b) at 2.
    unfold Struct.byte_of_N. f_equal. f_equal.
    rewrite N.add_comm, N.Div0.mod_add. done. }
  subst n0 n1 n2 n3.
  by rewrite !Hbyte.
Qed.

Section CodecEdges.

Context {errnos : Errnos}.
Context {Stats : Type} {pickle : Pickle Stats}.
Context {Profiler : Type} {profiler_ops : ProfilerOps Profiler Stats}.

(** [recv] takes its bytes off the front of the stream and loses none: what
    it returns, followed by what it leaves in the socket, is what the peer
    delivered. *)
Theorem recv_splits_stream sock size data sock' :
  recv sock size = (Ok data, sock') ->
  Socket.incoming sock = data ++ Socket.incoming sock' /\
  N.of_nat (length data) = size.
Proof.
  destruct (N.le_gt_cases size (N.of_nat (length (Socket.incoming sock))))
    as [Hsize|Hsize].
  - rewrite recv_enough by done. intros [= <- <-]. simpl.
    rewrite take_drop, length_take. split; [done|lia].
  - by rewrite recv_closed_early.
Qed.

(** Frames sent back to back are decoded one after the other: each
    [recv_stats] returns the statistics of the next frame and leaves the
    stream at the start of the following one. *)
Theorem recv_stats_two_frames p1 p2 proto1 proto2 frame1 frame2 rest :
  pickle_round_trips ->
  pack_stats p1 proto1 = Ok frame1 ->
  pack_stats p2 proto2 = Ok frame2 ->
  recv_stats (Socket.mk (frame1 ++ frame2 ++ rest)) =
    (Ok (profiler_result p1), Socket.mk (frame2 ++ rest)) /\
  recv_stats (Socket.mk (frame2 ++ rest)) =
    (Ok (profiler_result p2), Socket.mk rest).
Proof.
  intros Hpickle Hf1 Hf2.
  split; by eapply recv_stats_frame.
Qed.

(** A peer that closes before the four header bytes have arrived makes
    [recv_stats] raise the "Connection closed" socket error; what had
    arrived is consumed. *)
Theorem recv_stats_short_header sock :
  (length (Socket.incoming sock) < 4)%nat ->
  recv_stats sock =
    (Raise (SocketError ECONNRESET "Connection closed"), Socket.mk []).
Proof.
  intros Hshort. unfold recv_stats.
  rewrite recv_closed_early; [done|]. unfold Struct.calcsize. lia.
Qed.

(** No part of a frame is taken for a frame: on a stream that ends
    anywhere inside a frame of [pack_stats], [recv_stats] raises the
    "Connection closed" socket error and returns no statistics. *)
Theorem recv_stats_truncated_frame profiler protocol frame n :
  pack_stats profiler protocol = Ok frame ->
  (n < length frame)%nat ->
  fst (recv_stats (Socket.mk (take n frame))) =
    Raise (SocketError ECONNRESET "Connection closed").
Proof.
  intros (header & dump & Hdump & Hpack & ->)%pack_stats_inv Hn.
  pose proof (StructFacts.pack_length _ _ Hpack) as Hlen.
  rewrite length_app in Hn.
  destruct (decide (n < 4)%nat) as [Hhead|Hhead].
  - unfold recv_stats. rewrite recv_closed_early; [done|].
    simpl. rewrite length_take. unfold Struct.calcsize. lia.
  - rewrite take_app_ge by lia.
    unfold recv_stats.
    change Struct.calcsize with (N.of_nat 4). rewrite <- Hlen.
    rewrite (recv_app _ header (take (n - length header) dump)) by done.
    rewrite (StructFacts.unpack_pack _ _ Hpack).
    rewrite recv_closed_early; [done|].
    simpl. rewrite length_take. lia.
Qed.

(** A frame of [pack_stats] is at least the header long, and its payload
    is no longer than the header can count: 2^32 - 1 bytes. *)
Theorem pack_stats_frame_size profiler protocol frame :
  pack_stats profiler protocol = Ok frame ->
  (4 <= length frame)%nat /\
  N.of_nat (length frame) <= 4 + Struct.uint32_max.
Proof.
  intros (header & dump & Hdump & Hpack & ->)%pack_stats_inv.
  pose proof (StructFacts.pack_length _ _ Hpack) as Hlen.
  rewrite length_app. split; [lia|].
  unfold Struct.pack in Hpack.
  destruct (N.leb_spec (N.of_nat (length dump)) Struct.uint32_max); [|done].
  lia.
Qed.


End CodecEdges.

Lemma recv_splits_stream_sample :
  Socket.incoming (Socket.mk [Byte.x00; Byte.x01; Byte.x02]) =
    [Byte.x00; Byte.x01] ++ Socket.incoming (Socket.mk [Byte.x02]) /\
  N.of_nat (length [Byte.x00; Byte.x01]) = 2.
Proof.
  apply (recv_splits_stream (errnos := Sample.linux)
           (Socket.mk [Byte.x00; Byte.x01; Byte.x02]) 2
           [Byte.x00; Byte.x01] (Socket.mk [Byte.x02])).
  reflexivity.
Defined.

Lemma recv_stats_two_frames_sample :
  let first := [Byte.x00; Byte.x00; Byte.x00; Byte.x03;
                Byte.x02; Byte.x41; Byte.x2e] in
  let second := [Byte.x00; Byte.x00; Byte.x00; Byte.x04;
                 Byte.x02; Byte.x42; Byte.x43; Byte.x2e] in
  recv_stats (errnos := Sample.linux) (pickle := Sample.pickle)
    (Socket.mk (first ++ second ++ []))
  = (Ok [Byte.x41], Socket.mk (second ++ [])) /\
  recv_stats (errnos := Sample.linux) (pickle := Sample.pickle)
    (Socket.mk (second ++ []))
  = (Ok [Byte.x42; Byte.x43], Socket.mk []).
Proof.
  apply (recv_stats_two_frames (errnos := Sample.linux)
           (pickle := Sample.pickle) (profiler_ops := Sample.profiler_ops)
           [Byte.x41] [Byte.x42; Byte.x43] 2 2).
  - apply sample_pickle_round_trips.
  - reflexivity.
  - reflexivity.
Defined.

Lemma recv_stats_short_header_sample :
  recv_stats (errnos := Sample.linux) (pickle := Sample.pickle)
    (Socket.mk [Byte.x00; Byte.x00])
  = (Raise (SocketError 104 "Connection closed"), Socket.mk []).
Proof.
  apply (recv_stats_short_header (errnos := Sample.linux)
           (pickle := Sample.pickle) (Socket.mk [Byte.x00; Byte.x00])).
  simpl. lia.
Defined.

Lemma recv_stats_truncated_frame_sample :
  fst (recv_stats (errnos := Sample.linux) (pickle := Sample.pickle)
         (Socket.mk (take 6 [Byte.x00; Byte.x00; Byte.x00; Byte.x03;
                             Byte.x02; Byte.x41; Byte.x2e])))
  = Raise (SocketError 104 "Connection closed").
Proof.
  apply (recv_stats_truncated_frame (errnos := Sample.linux)
           (pickle := Sample.pickle) (profiler_ops := Sample.profiler_ops)
           [Byte.x41] 2).
  - reflexivity.
  - simpl. lia.
Defined.

Lemma pack_stats_frame_size_sample :
  (4 <= length [Byte.x00; Byte.x00; Byte.x00; Byte.x03;
                Byte.x02; Byte.x41; Byte.x2e])%nat /\
  N.of_nat (length [Byte.x00; Byte.x00; Byte.x00; Byte.x03;
                    Byte.x02; Byte.x41; Byte.x2e])
    <= 4 + Struct.uint32_max.
Proof.
  apply (pack_stats_frame_size (pickle := Sample.pickle)
           (profiler_ops := Sample.profiler_ops) [Byte.x41] 2).
  reflexivity.
Defined.


(** * More of the server *)

Section ServerEdges.

Context {errnos : Errnos}.
Context {Stats : Type} {pickle : Pickle Stats}.
Context {Profiler : Type} {profiler_ops : ProfilerOps Profiler Stats}.
Context {adapter : Adapter} {set_iteration : SetIteration}.

Implicit Types (self : Server.t Profiler) (client : Client) (data : bytes).

(** Any exception is of the kind [connected] treats as a gone client, or
    of the kind it lets through. *)
Lemma gone_or_other (e : exn) :
  (exists errno msg, e = SocketError errno msg /\
     (errno = EBADF \/ errno = EPIPE)) \/
  (forall errno msg, e = SocketError errno msg ->
     errno <> EBADF /\ errno <> EPIPE).
Proof.
  destruct e as [errno msg| | |]; try by right.
  destruct (decide (errno = EBADF \/ errno = EPIPE)); [left; eauto|].
  right. intros ? ? [= <- <-]. tauto.
Qed.

(** [connected] starts the same way whatever follows. *)
Lemma connected_starts client self :
  exists rest,
    Server.trace (snd (connected client self)) =
      Server.trace (joined client self) ++ rest /\
    sends rest =
      match Server._latest_data self with
      | Some data =>
          [(client, data,
            _send_outcome (Server.trace (joined client self)) client data)]
      | None => []
      end.
Proof.
  destruct (Server._latest_data self) as [data|] eqn:Hlatest.
  - destruct (_send_outcome (Server.trace (joined client self)) client data)
      as [e|] eqn:Hout.
    + destruct (gone_or_other e) as [(errno & msg & -> & Herrno)|Hother].
      * rewrite (connected_trace_gone _ _ data errno msg) by done.
        eexists. split; [simpl; by rewrite <- ?app_assoc|done].
      * rewrite (connected_raises _ _ data e) by done.
        eexists. split; [simpl; by rewrite <- ?app_assoc|done].
    + pose proof (connected_finish client self) as Hfin.
      unfold catch_up_succeeds in Hfin. rewrite Hlatest in Hfin.
      rewrite (Hfin Hout).
      destruct (decide (size _ = 1%nat)); simpl;
        (eexists; split; [by rewrite <- ?app_assoc|done]).
  - pose proof (connected_finish client self) as Hfin.
    unfold catch_up_succeeds in Hfin. rewrite Hlatest in Hfin.
    rewrite (Hfin I).
    destruct (decide (size _ = 1%nat)); simpl.
    + eexists. split; [by rewrite <- ?app_assoc|done].
    + exists []. by rewrite app_nil_r.
Qed.

(** A catch-up send that raises something [connected] does not handle
    leaves the client behind: the exception goes to the caller, the client
    is still in the set, it was neither closed nor logged as disconnected,
    and the loop was not scheduled. *)
Theorem connected_raise_keeps_client client self data e :
  Server._latest_data self = Some data ->
  _send_outcome (Server.trace (joined client self)) client data = Some e ->
  (forall errno msg, e = SocketError errno msg ->
     errno <> EBADF /\ errno <> EPIPE) ->
  fst (connected client self) = Raise e /\
  client ∈ Server.clients (snd (connected client self)) /\
  Server.emitted self (snd (connected client self)) =
    [EvLog (fmt_connected (_addr client)
              (size (Server.clients self ∪ {[client]})));
     EvStartWatching client;
     EvSend client data (Some e)].
Proof.
  intros Hlatest Hout Hother.
  rewrite (connected_raises _ _ data e) by done.
  split; [done|]. split; [simpl; set_solver|].
  apply emitted_app. simpl. by rewrite <- app_assoc.
Qed.

(** [disconnected] for a member: it returns, the client alone leaves the
    set, the log line carries the number of clients that remain, the close
    comes after the log line, and the profiler and the latest frame are not
    touched. *)
Theorem disconnected_member_effects client self :
  client ∈ Server.clients self ->
  fst (disconnected client self) = Ok tt /\
  Server.clients (snd (disconnected client self)) =
    Server.clients self ∖ {[client]} /\
  size (Server.clients self) =
    S (size (Server.clients (snd (disconnected client self)))) /\
  Server.emitted self (snd (disconnected client self)) =
    [EvLog (fmt_disconnected (_addr client)
              (size (Server.clients (snd (disconnected client self)))));
     EvClose client] /\
  Server.profiler (snd (disconnected client self)) = Server.profiler self.
Proof.
  intros Hin. rewrite disconnected_member by done. simpl.
  split; [done|]. split; [done|]. split; [|split; [|done]].
  - rewrite (union_difference_L {[client]} (Server.clients self)) at 1
      by set_solver.
    rewrite size_union, size_singleton by set_solver. done.
  - apply emitted_app. done.
Qed.

(** The log line of [connected] counts the client that is connecting: one
    more than before for a new client, the same number for one that was a
    member already; and it comes first, followed by [_start_watching]. *)
Theorem connected_logs_total client self :
  exists rest,
    Server.emitted self (snd (connected client self)) =
      EvLog (fmt_connected (_addr client)
               (if decide (client ∈ Server.clients self)
                then size (Server.clients self)
                else S (size (Server.clients self))))
      :: EvStartWatching client :: rest.
Proof.
  destruct (connected_starts client self) as (rest & Htrace & _).
  exists rest. apply emitted_app. rewrite Htrace. simpl.
  rewrite <- app_assoc. simpl. do 3 f_equal.
  destruct (decide (client ∈ Server.clients self)).
  - f_equal. f_equal. set_solver.
  - rewrite size_union, size_singleton by set_solver. f_equal. lia.
Qed.

(** [disconnected] sends nothing and never schedules the loop. *)
Theorem disconnected_is_silent client self :
  sends (Server.emitted self (snd (disconnected client self))) = [] /\
  scheduling_calls (Server.emitted self (snd (disconnected client self)))
    = 0%nat.
Proof.
  destruct (decide (client ∈ Server.clients self)).
  - rewrite disconnected_member by done.
    erewrite emitted_app; [|done]. done.
  - rewrite disconnected_absent by done. by rewrite emitted_self.
Qed.

(** The first [next()] on the generator.  With no client it logs the start
    and the stop and ends at once, without starting the profiler; with
    clients it logs the start, starts the profiler and stops at the
    [yield]. *)
Theorem profiling_first_step self :
  profiling_next GenCreated self =
    if decide (Server.clients self = ∅) then
      (Ok GenFinished,
       emits [EvLog (fmt_profiler_started (Server.interval self));
              EvLog fmt_profiler_stopped] self)
    else
      (Ok GenSuspended,
       Server.with_profiler profiler_start
         (emits [EvLog (fmt_profiler_started (Server.interval self))] self)).
Proof.
  cbn [profiling_next]. unfold bind at 1.
  unfold _log_profiler_started, log, bind, gets, modify. simpl.
  rewrite emit_emits.
  destruct (decide (Server.clients self = ∅)) as [He|Hne].
  - rewrite loop_head_idle by done. by rewrite emits_emits.
  - by rewrite loop_head_active.
Qed.

(** *** A round in which every failure is a socket error *)

Lemma disconnect_all_run closed self :
  exists evs, no_sends evs /\
    disconnect_all closed self =
      (Ok tt,
       emits evs
         (Server.with_clients (fun cs => cs ∖ list_to_set closed) self)).
Proof.
  revert self. induction closed as [|client closed IH]; intros self.
  { exists []. split; [done|]. simpl. rewrite emits_nil.
    destruct self. unfold Server.with_clients. simpl. do 2 f_equal.
    set_solver. }
  cbn [disconnect_all]. unfold bind at 1.
  destruct (decide (client ∈ Server.clients self)) as [Hin|Hout].
  - rewrite disconnected_member by done.
    destruct (IH (left client self)) as (evs & Hevs & ->).
    exists ([EvLog (fmt_disconnected (_addr client)
                      (size (Server.clients self ∖ {[client]})));
             EvClose client] ++ evs).
    split.
    + by apply no_sends_app.
    + unfold left, emits, Server.with_clients. simpl.
      rewrite <- app_assoc.
      replace (Server.clients self ∖ {[client]} ∖ list_to_set closed)
        with (Server.clients self ∖ ({[client]} ∪ list_to_set closed))
        by set_solver.
      done.
  - rewrite disconnected_absent by done.
    destruct (IH self) as (evs & Hevs & ->).
    exists evs. split; [done|].
    unfold emits, Server.with_clients. simpl.
    replace (Server.clients self ∖ ({[client]} ∪ list_to_set closed))
      with (Server.clients self ∖ list_to_set closed) by set_solver.
    done.
Qed.

Lemma round_caught data (out : Client -> option exn) self :
  pack_stats (profiler_stop (Server.profiler self))
             (Server.pickle_protocol self) = Ok data ->
  (forall h client, client ∈ set_iter (Server.clients self) ->
     _send_outcome h client data = out client) ->
  (forall client, client ∈ set_iter (Server.clients self) ->
     is_caught (out client) = true) ->
  exists evs, no_sends evs /\
    profiling_next GenSuspended self = loop_head (round_end data out evs self).
Proof.
  intros Hpack Hout Hcaught.
  cbn [profiling_next]. unfold bind at 1. rewrite round_unfold. simpl.
  rewrite Hpack. unfold bind at 1. simpl.
  rewrite (broadcast_run data out) by done. simpl.
  match goal with
  | |- context [disconnect_all ?closed ?s] =>
      destruct (disconnect_all_run closed s) as (evs & Hevs & ->)
  end.
  exists evs. split; [done|].
  unfold round_end, emits, Server.with_clients. simpl.
  by rewrite <- app_assoc.
Qed.

Lemma loop_head_run self :
  loop_head self =
    if decide (Server.clients self = ∅) then
      (Ok GenFinished, emits [EvLog fmt_profiler_stopped] self)
    else (Ok GenSuspended, Server.with_profiler profiler_start self).
Proof.
  destruct (decide (Server.clients self = ∅)).
  - by apply loop_head_idle.
  - by apply loop_head_active.
Qed.

Lemma sends_map_send data (out : Client -> option exn) todo :
  sends (map (fun client => EvSend client data (out client)) todo)
  = map (fun client => (client, data, out client)) todo.
Proof. induction todo as [|client todo IH]; [done|]. simpl. by rewrite IH. Qed.

(** After a round in which every failed send raised a socket error, the
    clients are those of before whose send did not raise EPIPE: no other
    failure removes a client, and no client is removed without one. *)
Theorem round_drops_exactly_broken_pipes data (out : Client -> option exn)
    self client :
  set_iter_visits_each_once ->
  pack_stats (profiler_stop (Server.profiler self))
             (Server.pickle_protocol self) = Ok data ->
  (forall h client, client ∈ set_iter (Server.clients self) ->
     _send_outcome h client data = out client) ->
  (forall client, client ∈ set_iter (Server.clients self) ->
     is_caught (out client) = true) ->
  client ∈ Server.clients (snd (profiling_next GenSuspended self)) <->
  client ∈ Server.clients self /\ is_broken_pipe (out client) = false.
Proof.
  intros Hiter Hpack Hout Hcaught.
  destruct (round_caught data out self) as (evs & _ & ->); [done..|].
  assert (Server.clients (snd (loop_head (round_end data out evs self)))
          = Server.clients (round_end data out evs self)) as ->.
  { rewrite loop_head_run. by destruct (decide _). }
  simpl. rewrite elem_of_difference, elem_of_list_to_set, list_elem_of_filter.
  assert (client ∈ set_iter (Server.clients self)
          <-> client ∈ Server.clients self) as ->.
  { etrans; [|apply elem_of_elements]. by rewrite (Hiter _). }
  destruct (is_broken_pipe (out client)); simpl; naive_solver.
Qed.

(** In such a round every client is sent the frame just packed, exactly
    once, in iteration order and whatever happened to the clients before
    it; nothing else is sent. *)
Theorem round_sends_each_client_once data (out : Client -> option exn) self :
  set_iter_visits_each_once ->
  pack_stats (profiler_stop (Server.profiler self))
             (Server.pickle_protocol self) = Ok data ->
  (forall h client, client ∈ set_iter (Server.clients self) ->
     _send_outcome h client data = out client) ->
  (forall client, client ∈ set_iter (Server.clients self) ->
     is_caught (out client) = true) ->
  sends (Server.emitted self (snd (profiling_next GenSuspended self))) =
    map (fun client => (client, data, out client))
        (set_iter (Server.clients self)) /\
  targets (Server.emitted self (snd (profiling_next GenSuspended self)))
    ≡ₚ elements (Server.clients self).
Proof.
  intros Hiter Hpack Hout Hcaught.
  destruct (round_caught data out self) as (evs & Hevs & ->); [done..|].
  assert (sends (Server.emitted self
                   (snd (loop_head (round_end data out evs self))))
          = map (fun client => (client, data, out client))
                (set_iter (Server.clients self))) as Hsends.
  { rewrite loop_head_run.
    destruct (decide _); simpl;
      (erewrite emitted_app; [|simpl; by rewrite <- ?app_assoc]);
      rewrite !sends_app, sends_map_send, Hevs; simpl;
      by rewrite ?app_nil_r. }
  split; [done|].
  unfold targets. rewrite Hsends, map_map. simpl. rewrite map_id.
  apply Hiter.
Qed.

(** Such a round stores its frame as the latest one, and starts the
    profiler again only when clients remain: with none left the generator
    ends and the profiler stays stopped and cleared. *)
Theorem round_restarts_profiler_for_clients data (out : Client -> option exn)
    self :
  pack_stats (profiler_stop (Server.profiler self))
             (Server.pickle_protocol self) = Ok data ->
  (forall h client, client ∈ set_iter (Server.clients self) ->
     _send_outcome h client data = out client) ->
  (forall client, client ∈ set_iter (Server.clients self) ->
     is_caught (out client) = true) ->
  Server._latest_data (snd (profiling_next GenSuspended self)) = Some data /\
  (Server.clients (snd (profiling_next GenSuspended self)) = ∅ ->
     fst (profiling_next GenSuspended self) = Ok GenFinished /\
     Server.profiler (snd (profiling_next GenSuspended self)) =
       profiler_clear (profiler_stop (Server.profiler self))) /\
  (Server.clients (snd (profiling_next GenSuspended self)) <> ∅ ->
     fst (profiling_next GenSuspended self) = Ok GenSuspended /\
     Server.profiler (snd (profiling_next GenSuspended self)) =
       profiler_start (profiler_clear (profiler_stop (Server.profiler self)))).
Proof.
  intros Hpack Hout Hcaught.
  destruct (round_caught data out self) as (evs & _ & ->); [done..|].
  rewrite loop_head_run.
  destruct (decide (Server.clients (round_end data out evs self) = ∅))
    as [He|Hne]; simpl in *.
  - split; [done|]. split; [done|]. by intros [].
  - split; [done|]. split; [|done]. intros He. by destruct Hne.
Qed.

(** The round in which the only client turns out gone: the frame is sent,
    the client is disconnected, and the generator ends with the "Profiler
    stopped" line and an empty client set, the profiler not started
    again. *)
Theorem round_last_client_gone client msg data self :
  set_iter_visits_each_once ->
  Server.clients self = {[client]} ->
  pack_stats (profiler_stop (Server.profiler self))
             (Server.pickle_protocol self) = Ok data ->
  (forall h, _send_outcome h client data = Some (SocketError EPIPE msg)) ->
  fst (profiling_next GenSuspended self) = Ok GenFinished /\
  Server.clients (snd (profiling_next GenSuspended self)) = ∅ /\
  Server.emitted self (snd (profiling_next GenSuspended self)) =
    [EvSend client data (Some (SocketError EPIPE msg));
     EvLog (fmt_disconnected (_addr client) 0);
     EvClose client;
     EvLog fmt_profiler_stopped] /\
  Server.profiler (snd (profiling_next GenSuspended self)) =
    profiler_clear (profiler_stop (Server.profiler self)).
Proof.
  intros Hiter Hcs Hpack Hout.
  assert (set_iter (Server.clients self) = [client]) as Horder.
  { apply (Permutation_singleton_r (A := Client)).
    etrans; [apply Hiter|]. by rewrite Hcs, elements_singleton. }
  assert (({[client]} : gset Client) ∖ {[client]} = ∅) as Hleft by set_solver.
  assert (profiling_next GenSuspended self =
    (Ok GenFinished,
     emits [EvLog fmt_profiler_stopped]
       (left client
          (emits [EvSend client data (Some (SocketError EPIPE msg))]
             (Server.with_profiler profiler_clear
                (Server.with_latest_data data
                   (Server.with_profiler profiler_stop self))))))) as ->.
  { cbn [profiling_next]. unfold bind at 1. rewrite round_unfold. simpl.
    rewrite Hpack. unfold bind at 1. simpl.
    rewrite Horder.
    rewrite (broadcast_run data (fun _ => Some (SocketError EPIPE msg)));
      cycle 1.
    { intros h c Hc. assert (c = client) as -> by set_solver. apply Hout. }
    { done. }
    simpl. rewrite filter_cons, filter_nil. simpl.
    rewrite bool_decide_eq_true_2 by done.
    destruct (decide _) as [_|[]]; [|done].
    rewrite disconnect_all_one by (simpl; rewrite Hcs; set_solver).
    by rewrite loop_head_idle by (simpl; by rewrite Hcs). }
  simpl. rewrite Hcs, Hleft.
  split; [done|]. split; [done|]. split; [|done].
  apply emitted_app. simpl. rewrite Hcs, Hleft, size_empty.
  by rewrite <- !app_assoc.
Qed.

(** When [pack_stats] raises, the round ends there: the exception leaves
    the generator with the profiler stopped but neither cleared nor
    started again, nothing sent or logged, and the clients and the latest
    frame as they were. *)
Theorem round_pack_failure self e :
  pack_stats (profiler_stop (Server.profiler self))
             (Server.pickle_protocol self) = Raise e ->
  profiling_next GenSuspended self =
    (Raise e, Server.with_profiler profiler_stop self).
Proof.
  intros Hpack. cbn [profiling_next]. unfold bind at 1.
  rewrite round_unfold. simpl. by rewrite Hpack.
Qed.

Lemma broadcast_app data (out : Client -> option exn) pre todo closed self :
  (forall h client, client ∈ pre -> _send_outcome h client data = out client) ->
  (forall client, client ∈ pre -> is_caught (out client) = true) ->
  broadcast data (pre ++ todo) closed self =
    broadcast data todo
      (closed ++ filter (fun client => is_broken_pipe (out client)) pre)
      (emits (map (fun client => EvSend client data (out client)) pre) self).
Proof.
  revert closed self.
  induction pre as [|client pre IH]; intros closed self Hout Hcaught.
  { simpl. by rewrite app_nil_r, emits_nil. }
  cbn [app broadcast]. unfold bind at 1.
  rewrite (send_caught _ _ _ (out client)) by (apply Hout; set_solver).
  specialize (Hcaught client ltac:(set_solver)) as Hc.
  assert (forall closed',
    broadcast data (pre ++ todo) closed'
      (emits [EvSend client data (out client)] self)
    = broadcast data todo
        (closed' ++ filter (fun c => is_broken_pipe (out c)) pre)
        (emits (map (fun c => EvSend c data (out c)) (client :: pre)) self))
    as Hrest.
  { intros closed'. rewrite IH.
    - by rewrite emits_emits.
    - intros. apply Hout. set_solver.
    - intros. apply Hcaught. set_solver. }
  rewrite filter_cons.
  destruct (out client) as [[errno msg| | |]|] eqn:Hclient; try done; simpl.
  - destruct (decide (errno = EPIPE)) as [->|Hne].
    + rewrite Hrest, bool_decide_eq_true_2 by done. simpl.
      by rewrite <- app_assoc.
    + rewrite Hrest, bool_decide_eq_false_2 by done. done.
Qed.

(** An exception from [_send] that is not a [socket.error] ends the pass
    where it is raised and leaves the generator: the clients after that
    one are sent nothing, clients whose send raised EPIPE earlier in the
    pass are not disconnected, and the frame is already the latest one. *)
Theorem round_aborts_on_other_exception data (out : Client -> option exn)
    pre client rest e self :
  pack_stats (profiler_stop (Server.profiler self))
             (Server.pickle_protocol self) = Ok data ->
  set_iter (Server.clients self) = pre ++ client :: rest ->
  (forall h c, c ∈ pre -> _send_outcome h c data = out c) ->
  (forall c, c ∈ pre -> is_caught (out c) = true) ->
  _send_outcome
    (Server.trace self ++ map (fun c => EvSend c data (out c)) pre)
    client data = Some e ->
  is_caught (Some e) = false ->
  profiling_next GenSuspended self =
    (Raise e,
     emits (map (fun c => EvSend c data (out c)) pre
            ++ [EvSend client data (Some e)])
       (Server.with_profiler profiler_clear
          (Server.with_latest_data data
             (Server.with_profiler profiler_stop self)))).
Proof.
  intros Hpack Horder Hout Hcaught Hclient He.
  cbn [profiling_next]. unfold bind at 1. rewrite round_unfold. simpl.
  rewrite Hpack. unfold bind at 1. simpl.
  rewrite Horder, (broadcast_app data out) by done.
  cbn [broadcast]. unfold bind at 1.
  rewrite (send_caught _ _ _ (Some e)) by done.
  rewrite emits_emits.
  by destruct e.
Qed.

(** A client that connects after a round is sent that round's frame: the
    frame [pack_stats] returned in the round, once, and nothing else. *)
Theorem late_joiner_gets_latest_round client data self :
  pack_stats (profiler_stop (Server.profiler self))
             (Server.pickle_protocol self) = Ok data ->
  sends (Server.emitted (snd (profiling_next GenSuspended self))
           (snd (connected client (snd (profiling_next GenSuspended self)))))
  = [(client, data,
      _send_outcome
        (Server.trace (joined client (snd (profiling_next GenSuspended self))))
        client data)].
Proof.
  intros Hpack.
  pose proof (profiling_next_latest GenSuspended self) as Hlatest.
  rewrite Hpack in Hlatest.
  destruct (connected_starts client (snd (profiling_next GenSuspended self)))
    as (rest & Htrace & Hrest).
  rewrite Hlatest in Hrest.
  erewrite emitted_app; [|rewrite Htrace; simpl; by rewrite <- app_assoc].
  done.
Qed.

(** *** What no call changes *)

Section Stable.

Variable R : relation (Server.t Profiler).
Hypothesis R_preorder : PreOrder R.
Hypothesis R_emit : forall ev self, R self (Server.emit ev self).
Hypothesis R_profiler : forall f self, R self (Server.with_profiler f self).
Hypothesis R_latest :
  forall data self, R self (Server.with_latest_data data self).
Hypothesis R_remove :
  forall client self,
    R self (Server.with_clients (fun cs => cs ∖ {[client]}) self).

Lemma relates_bind {A B} (m : M (Server.t Profiler) A)
    (k : A -> M (Server.t Profiler) B) :
  relates R m -> (forall a, relates R (k a)) -> relates R (bind m k).
Proof.
  intros Hm Hk self. unfold bind. specialize (Hm self).
  destruct (m self) as [[a|e] self1]; simpl in *; [|done].
  etrans; [exact Hm|apply Hk].
Qed.

Lemma relates_pure {A} (m : M (Server.t Profiler) A) :
  (forall self, snd (m self) = self) -> relates R m.
Proof. intros Hm self. by rewrite Hm. Qed.

Lemma relates_modify (f : Server.t Profiler -> Server.t Profiler) :
  (forall self, R self (f self)) -> relates R (modify f).
Proof. intros Hf self. apply Hf. Qed.

Lemma relates_try {A} (m : M (Server.t Profiler) A) :
  relates R m -> relates R (try_ m).
Proof. intros Hm self. unfold try_. specialize (Hm self). by destruct (m self). Qed.

Lemma relates_send client data : relates R (_send client data).
Proof.
  intros self. unfold _send. destruct (_send_outcome _ _ _); apply R_emit.
Qed.

Lemma relates_log msg : relates R (log msg).
Proof. by apply relates_modify. Qed.

Lemma relates_disconnected client : relates R (disconnected client).
Proof.
  unfold disconnected. apply relates_bind; [by apply relates_pure|].
  intros cs. destruct (decide _); [|by apply relates_pure].
  apply relates_bind; [by apply relates_modify|]. intros _.
  apply relates_bind; [|intros _; by apply relates_modify].
  apply relates_bind; [by apply relates_pure|]. intros n. apply relates_log.
Qed.

Lemma relates_broadcast data todo closed :
  relates R (broadcast data todo closed).
Proof.
  revert closed. induction todo as [|client todo IH]; intros closed.
  { by apply relates_pure. }
  simpl. apply relates_bind; [apply relates_try, relates_send|].
  intros [?|[errno msg| | |]]; try done; try by apply relates_pure.
  by destruct (decide _).
Qed.

Lemma relates_disconnect_all closed : relates R (disconnect_all closed).
Proof.
  induction closed as [|client closed IH]; [by apply relates_pure|].
  simpl. apply relates_bind; [apply relates_disconnected|done].
Qed.

Lemma relates_loop_head : relates R loop_head.
Proof.
  unfold loop_head. apply relates_bind; [by apply relates_pure|].
  intros cs. destruct (decide _).
  - apply relates_bind; [apply relates_log|]. intros _. by apply relates_pure.
  - apply relates_bind; [by apply relates_modify|]. intros _.
    by apply relates_pure.
Qed.

Lemma relates_round : relates R round.
Proof.
  unfold round.
  apply relates_bind; [by apply relates_modify|]. intros _.
  apply relates_bind; [by apply relates_pure|]. intros self0.
  apply relates_bind; [by apply relates_pure|]. intros data.
  apply relates_bind; [by apply relates_modify|]. intros _.
  apply relates_bind; [by apply relates_modify|]. intros _.
  apply relates_bind; [by apply relates_pure|]. intros cs.
  apply relates_bind; [apply relates_broadcast|]. intros closed.
  apply relates_disconnect_all.
Qed.

Lemma relates_profiling_next gen : relates R (profiling_next gen).
Proof.
  destruct gen; simpl.
  - apply relates_bind; [|intros _; apply relates_loop_head].
    apply relates_bind; [by apply relates_pure|]. intros n. apply relates_log.
  - apply relates_bind; [apply relates_round|]. intros _.
    apply relates_loop_head.
  - by apply relates_pure.
Qed.

Lemma relates_connected client :
  (forall self,
     R self (Server.with_clients (fun cs => cs ∪ {[client]}) self)) ->
  relates R (connected client).
Proof.
  intros R_add. unfold connected.
  apply relates_bind; [by apply relates_modify|]. intros _.
  apply relates_bind.
  { apply relates_bind; [by apply relates_pure|]. intros n. apply relates_log. }
  intros _.
  apply relates_bind; [by apply relates_modify|]. intros _.
  apply relates_bind; [by apply relates_pure|]. intros latest.
  assert (relates R (cs <- gets Server.clients ;;
            if decide (size cs = 1%nat) then _start_profiling else ret tt))
    as Hfinish.
  { apply relates_bind; [by apply relates_pure|]. intros cs.
    destruct (decide _); [by apply relates_modify|by apply relates_pure]. }
  destruct latest as [data|]; [|done].
  apply relates_bind; [apply relates_try, relates_send|].
  intros [?|[errno msg| | |]]; try done; try by apply relates_pure.
  destruct (decide _); [apply relates_disconnected|by apply relates_pure].
Qed.

End Stable.

(** Only [connected] adds a client: a step of the round loop and a
    [disconnected] call leave the server with clients it already had. *)
Theorem only_connected_adds_clients :
  (forall gen self,
     Server.clients (snd (profiling_next gen self)) ⊆ Server.clients self) /\
  (forall client self,
     Server.clients (snd (disconnected client self)) ⊆ Server.clients self).
Proof.
  assert (PreOrder (no_new_clients (Profiler := Profiler))) as Hpre.
  { split; unfold no_new_clients; [by intros self|].
    intros s1 s2 s3 H12 H23. set_solver. }
  split.
  - intros gen self.
    apply (relates_profiling_next no_new_clients); try done;
      unfold no_new_clients; simpl; intros; set_solver.
  - intros client self.
    apply (relates_disconnected no_new_clients); try done;
      unfold no_new_clients; simpl; intros; set_solver.
Qed.

(** The interval and the pickle protocol given to [__init__] are never
    assigned again: after any sequence of [connected], [disconnected] and
    [next()] calls they are what they were. *)
Theorem settings_never_change calls self :
  Server.interval (after_all calls self) = Server.interval self /\
  Server.pickle_protocol (after_all calls self) = Server.pickle_protocol self.
Proof.
  assert (PreOrder (same_settings (Profiler := Profiler))) as Hpre.
  { split; unfold same_settings; [by intros s|].
    intros s1 s2 s3 [-> ->] [-> ->]. done. }
  change (same_settings self (after_all calls self)).
  revert self. induction calls as [|call calls IH]; intros self; [done|].
  simpl. etrans; [|apply IH].
  destruct call as [client|client|gen]; simpl.
  - by apply (relates_connected same_settings).
  - by apply (relates_disconnected same_settings).
  - by apply (relates_profiling_next same_settings).
Qed.

End ServerEdges.

(** * More at work on the sample world *)

(** A whole session with one client on a reliable backend, from
    [__init__] on: the client connects, the loop is scheduled and run for a
    round, the client disconnects, and the next step ends the loop.  The
    calls to the backend and the log lines, in order. *)
Theorem one_client_session :
  Server.trace
    (after_all (errnos := Sample.linux) (pickle := Sample.pickle)
       (profiler_ops := Sample.profiler_ops) (adapter := Sample.reliable)
       (set_iteration := Sample.iteration)
       [CallConnected Sample.A; CallNext GenCreated; CallNext GenSuspended;
        CallDisconnected Sample.A; CallNext GenSuspended]
       Sample.fresh)
  = [EvLog "Connected from 10.0.0.1:5001 (total: 1)";
     EvStartWatching Sample.A;
     EvStartProfiling;
     EvLog "Profiling every 5 seconds...";
     EvSend Sample.A Sample.frame1 None;
     EvLog "Disconnected from 10.0.0.1:5001 (total: 0)";
     EvClose Sample.A;
     EvLog "Profiler stopped"].
Proof. vm_compute. reflexivity. Qed.

Lemma connected_raise_keeps_client_sample :
  let reset := SocketError 104 "Connection reset by peer" in
  let run := connected (errnos := Sample.linux)
               (adapter := Sample.failing Sample.A reset)
               Sample.A (Sample.serving ∅) in
  fst run = Raise reset /\
  Sample.A ∈ Server.clients (snd run) /\
  Server.emitted (Sample.serving ∅) (snd run) =
    [EvLog (fmt_connected None (size (∅ ∪ {[Sample.A]} : gset Client)));
     EvStartWatching Sample.A;
     EvSend Sample.A Sample.frame1 (Some reset)].
Proof.
  apply (connected_raise_keeps_client (errnos := Sample.linux)
           (adapter := Sample.failing Sample.A
                         (SocketError 104 "Connection reset by peer"))
           Sample.A (Sample.serving ∅) Sample.frame1).
  - reflexivity.
  - reflexivity.
  - intros errno msg [= <- <-]. split; discriminate.
Defined.

Lemma disconnected_member_effects_sample :
  let self := Sample.serving {[Sample.A; Sample.B]} in
  let run := disconnected (adapter := Sample.reliable) Sample.A self in
  fst run = Ok tt /\
  Server.clients (snd run) = Server.clients self ∖ {[Sample.A]} /\
  size (Server.clients self) = S (size (Server.clients (snd run))) /\
  Server.emitted self (snd run) =
    [EvLog (fmt_disconnected (Some ("10.0.0.1"%string, 5001))
              (size (Server.clients (snd run))));
     EvClose Sample.A] /\
  Server.profiler (snd run) = Server.profiler self.
Proof.
  apply (disconnected_member_effects (adapter := Sample.reliable)
           Sample.A (Sample.serving {[Sample.A; Sample.B]})).
  unfold Sample.A, Sample.B. simpl. set_solver.
Defined.

Lemma round_drops_exactly_broken_pipes_sample :
  let self := Sample.serving {[Sample.A; Sample.B; Sample.C]} in
  let out := only_broken (errnos := Sample.linux) Sample.B "Broken pipe" in
  Sample.B ∈ Server.clients
    (snd (profiling_next (errnos := Sample.linux) (pickle := Sample.pickle)
            (profiler_ops := Sample.profiler_ops)
            (adapter := Sample.failing Sample.B
                          (SocketError 32 "Broken pipe"))
            (set_iteration := Sample.iteration) GenSuspended self))
  <-> Sample.B ∈ Server.clients self /\
      is_broken_pipe (errnos := Sample.linux) (out Sample.B) = false.
Proof.
  apply (round_drops_exactly_broken_pipes (errnos := Sample.linux)
           (pickle := Sample.pickle) (profiler_ops := Sample.profiler_ops)
           (adapter := Sample.failing Sample.B (SocketError 32 "Broken pipe"))
           (set_iteration := Sample.iteration) Sample.frame1
           (only_broken (errnos := Sample.linux) Sample.B "Broken pipe")
           (Sample.serving {[Sample.A; Sample.B; Sample.C]}) Sample.B).
  - intros cs. reflexivity.
  - reflexivity.
  - intros h client _. reflexivity.
  - intros client _. unfold only_broken. destruct (decide _); reflexivity.
Defined.

Lemma round_sends_each_client_once_sample :
  let self := Sample.serving {[Sample.A; Sample.B; Sample.C]} in
  let out := only_broken (errnos := Sample.linux) Sample.B "Broken pipe" in
  let self' :=
    snd (profiling_next (errnos := Sample.linux) (pickle := Sample.pickle)
           (profiler_ops := Sample.profiler_ops)
           (adapter := Sample.failing Sample.B (SocketError 32 "Broken pipe"))
           (set_iteration := Sample.iteration) GenSuspended self) in
  sends (Server.emitted self self') =
    map (fun client => (client, Sample.frame1, out client))
        (elements (Server.clients self)) /\
  targets (Server.emitted self self') ≡ₚ elements (Server.clients self).
Proof.
  apply (round_sends_each_client_once (errnos := Sample.linux)
           (pickle := Sample.pickle) (profiler_ops := Sample.profiler_ops)
           (adapter := Sample.failing Sample.B (SocketError 32 "Broken pipe"))
           (set_iteration := Sample.iteration) Sample.frame1
           (only_broken (errnos := Sample.linux) Sample.B "Broken pipe")
           (Sample.serving {[Sample.A; Sample.B; Sample.C]})).
  - intros cs. reflexivity.
  - reflexivity.
  - intros h client _. reflexivity.
  - intros client _. unfold only_broken. destruct (decide _); reflexivity.
Defined.

Lemma round_restarts_profiler_for_clients_sample :
  let self := Sample.serving {[Sample.A; Sample.B; Sample.C]} in
  let run :=
    profiling_next (errnos := Sample.linux) (pickle := Sample.pickle)
      (profiler_ops := Sample.profiler_ops)
      (adapter := Sample.failing Sample.B (SocketError 32 "Broken pipe"))
      (set_iteration := Sample.iteration) GenSuspended self in
  Server._latest_data (snd run) = Some Sample.frame1 /\
  (Server.clients (snd run) = ∅ ->
     fst run = Ok GenFinished /\ Server.profiler (snd run) = []) /\
  (Server.clients (snd run) <> ∅ ->
     fst run = Ok GenSuspended /\ Server.profiler (snd run) = []).
Proof.
  apply (round_restarts_profiler_for_clients (errnos := Sample.linux)
           (pickle := Sample.pickle) (profiler_ops := Sample.profiler_ops)
           (adapter := Sample.failing Sample.B (SocketError 32 "Broken pipe"))
           (set_iteration := Sample.iteration) Sample.frame1
           (only_broken (errnos := Sample.linux) Sample.B "Broken pipe")
           (Sample.serving {[Sample.A; Sample.B; Sample.C]})).
  - reflexivity.
  - intros h client _. reflexivity.
  - intros client _. unfold only_broken. destruct (decide _); reflexivity.
Defined.

Lemma round_last_client_gone_sample :
  let self := Sample.serving {[Sample.A]} in
  let run :=
    profiling_next (errnos := Sample.linux) (pickle := Sample.pickle)
      (profiler_ops := Sample.profiler_ops)
      (adapter := Sample.failing Sample.A (SocketError 32 "Broken pipe"))
      (set_iteration := Sample.iteration) GenSuspended self in
  fst run = Ok GenFinished /\
  Server.clients (snd run) = ∅ /\
  Server.emitted self (snd run) =
    [EvSend Sample.A Sample.frame1 (Some (SocketError 32 "Broken pipe"));
     EvLog "A client disconnected (total: 0)";
     EvClose Sample.A;
     EvLog "Profiler stopped"] /\
  Server.profiler (snd run) = [].
Proof.
  apply (round_last_client_gone (errnos := Sample.linux)
           (pickle := Sample.pickle) (profiler_ops := Sample.profiler_ops)
           (adapter := Sample.failing Sample.A (SocketError 32 "Broken pipe"))
           (set_iteration := Sample.iteration)
           Sample.A "Broken pipe" Sample.frame1 (Sample.serving {[Sample.A]})).
  - intros cs. reflexivity.
  - reflexivity.
  - reflexivity.
  - intros h. reflexivity.
Defined.

Lemma round_pack_failure_sample :
  profiling_next (errnos := Sample.linux) (pickle := Sample.pickle)
    (profiler_ops := Sample.profiler_ops) (adapter := Sample.reliable)
    (set_iteration := Sample.iteration) GenSuspended
    (Server.mk [] Server.INTERVAL 9 {[Sample.A]} None [])
  = (Raise PickleError,
     Server.with_profiler (profiler_stop (ProfilerOps := Sample.profiler_ops))
       (Server.mk [] Server.INTERVAL 9 {[Sample.A]} None [])).
Proof.
  apply (round_pack_failure (errnos := Sample.linux) (pickle := Sample.pickle)
           (profiler_ops := Sample.profiler_ops) (adapter := Sample.reliable)
           (set_iteration := Sample.iteration)).
  reflexivity.
Defined.

Lemma round_aborts_on_other_exception_sample :
  profiling_next (errnos := Sample.linux) (pickle := Sample.pickle)
    (profiler_ops := Sample.profiler_ops)
    (adapter := Sample.failing Sample.C (OtherError "KeyboardInterrupt"))
    (set_iteration := Sample.iteration) GenSuspended
    (Sample.serving {[Sample.A; Sample.B; Sample.C]})
  = (Raise (OtherError "KeyboardInterrupt"),
     emits (map (fun c => EvSend c Sample.frame1 None) [Sample.B]
            ++ [EvSend Sample.C Sample.frame1
                  (Some (OtherError "KeyboardInterrupt"))])
       (Server.with_profiler
          (profiler_clear (ProfilerOps := Sample.profiler_ops))
          (Server.with_latest_data Sample.frame1
             (Server.with_profiler
                (profiler_stop (ProfilerOps := Sample.profiler_ops))
                (Sample.serving {[Sample.A; Sample.B; Sample.C]}))))).
Proof.
  apply (round_aborts_on_other_exception (errnos := Sample.linux)
           (pickle := Sample.pickle) (profiler_ops := Sample.profiler_ops)
           (adapter := Sample.failing Sample.C (OtherError "KeyboardInterrupt"))
           (set_iteration := Sample.iteration) Sample.frame1
           (fun _ => None) [Sample.B] Sample.C [Sample.A]).
  - reflexivity.
  - vm_compute. reflexivity.
  - intros h c Hc. apply list_elem_of_singleton in Hc. rewrite Hc. reflexivity.
  - intros c _. reflexivity.
  - reflexivity.
  - reflexivity.
Defined.

Lemma late_joiner_gets_latest_round_sample :
  let self := Sample.waiting {[Sample.A]} in
  let self' :=
    snd (profiling_next (errnos := Sample.linux) (pickle := Sample.pickle)
           (profiler_ops := Sample.profiler_ops) (adapter := Sample.reliable)
           (set_iteration := Sample.iteration) GenSuspended self) in
  sends (Server.emitted self'
           (snd (connected (errnos := Sample.linux)
                   (adapter := Sample.reliable) Sample.B self')))
  = [(Sample.B, Sample.frame1, None)].
Proof.
  apply (late_joiner_gets_latest_round (errnos := Sample.linux)
           (pickle := Sample.pickle) (profiler_ops := Sample.profiler_ops)
           (adapter := Sample.reliable) (set_iteration := Sample.iteration)
           Sample.B Sample.frame1 (Sample.waiting {[Sample.A]})).
  reflexivity.
Defined.
